(** * IRS990-Orchestrator: the workflow orchestrator of [main.py]

    A shallow embedding of the orchestrator's control logic: the case-name
    validator, the process runner [run_script], the six stage functions and
    the stage loop of [main].  The operating system (file system, child
    processes) is a parameter of the model; the program is a function of it. *)

From Stdlib Require Import String Ascii List ZArith Bool Lia.
Import ListNotations.
Local Open Scope string_scope.
Local Open Scope Z_scope.

(** ** Strings as Python uses them *)

Module Py.

(** [needle in haystack] for [str]. *)
Fixpoint str_in (needle haystack : string) : bool :=
  if String.prefix needle haystack then true
  else match haystack with
       | EmptyString => false
       | String _ rest => str_in needle rest
       end.

(** [s.endswith(suffix)]. *)
Definition endswith (s suffix : string) : bool :=
  let n := String.length s in
  let k := String.length suffix in
  if Nat.leb k n then String.eqb (String.substring (n - k) k s) suffix
  else false.

(** [s.startswith(p)]. *)
Definition startswith (s p : string) : bool := String.prefix p s.

(** [s.split(sep)] for a one-character separator. *)
Fixpoint split (sep : ascii) (s : string) : list string :=
  match s with
  | EmptyString => [EmptyString]
  | String c rest =>
      if Ascii.eqb c sep then EmptyString :: split sep rest
      else match split sep rest with
           | h :: t => String c h :: t
           | [] => [String c EmptyString]
           end
  end.

(** [x in l] for a list of strings. *)
Definition list_in (x : string) (l : list string) : bool :=
  existsb (String.eqb x) l.

(** [os.path.join(a, b)] of posixpath. *)
Definition path_join (a b : string) : string :=
  if startswith b "/" then b
  else if orb (String.eqb a "") (endswith a "/") then a ++ b
  else a ++ "/" ++ b.

End Py.

(** ** Exceptions *)

(** The three ways [validate_case_name] refuses a name; the payload is the
    name interpolated into the message. *)
Inductive case_name_problem :=
| EmptyCaseName                       (* "Case name cannot be empty." *)
| DisallowedCharacter (name : string) (* "Invalid case name: '..'. Allowed characters are ..." *)
| PathTraversal (name : string).      (* "Invalid case name: '..'. Path traversal '..' is not allowed." *)

(** What [except Exception as e] of [run_script] caught: the error the
    [try] body raised itself for a non-zero return code, or an exception of
    the launch, known by its type name and text. *)
Inductive caught_exception :=
| CaughtNonZeroExit (script_path_relative case_name : string) (returncode : Z)
| CaughtOther (type_name msg : string).

(** Why [run_script] raised [ScriptExecutionError]. *)
Inductive script_problem :=
| TargetNotFound (full_script_path : string)          (* "Target script not found: .." *)
| ExecutionNotFound (full_script_path : string)       (* "Execution error: The script .. was not found or .." *)
| TimedOut (script_path_relative case_name : string)  (* "Script .. timed out for case .." *)
| NonZeroExit (script_path_relative case_name : string) (returncode : Z)
                                                      (* "Script .. failed for case .. with return code .." *)
| Unexpected (script_path_relative case_name : string) (e : caught_exception).
                                                      (* "An unexpected error occurred while running ..: T - e" *)

(** Why a stage raised [StageError]. *)
Inductive stage_problem :=
| InvestigationMissing (stage case_name : string) (* "Cannot run '..' stage: Investigation directory for '..' not found or invalid." *)
| ReportedFailure (stage case_name : string).     (* "Stage '..' reported failure for case '..'." *)

Inductive setup_problem :=
| SetupBadName (p : case_name_problem)                (* str(e) of the InvalidCaseNameError *)
| SetupMkdirFailed (case_name : string) (oserror : string). (* "Failed to create directories for case '..': e" *)

(** The exception classes of the program, and the built-in ones it meets. *)
Inductive exn :=
| OrchestratorError (unknown_stage : string)  (* raised directly only for an unknown stage *)
| SetupError (p : setup_problem)
| StageError (p : stage_problem)
| ScriptExecutionError (p : script_problem)
| InvalidCaseNameError (p : case_name_problem)
| OSError (msg : string)
| FileNotFoundError (msg : string)
| TimeoutExpired
| OtherException (type_name msg : string)
| SystemExit (code : Z).

(** ** validate_case_name *)

Definition in_range (lo hi c : ascii) : bool :=
  andb (Nat.leb (nat_of_ascii lo) (nat_of_ascii c))
       (Nat.leb (nat_of_ascii c) (nat_of_ascii hi)).

(** The character class [[a-zA-Z0-9_.-]]. *)
Definition allowed_char (c : ascii) : bool :=
  in_range "a" "z" c || in_range "A" "Z" c || in_range "0" "9" c
  || Ascii.eqb c "_" || Ascii.eqb c "." || Ascii.eqb c "-".

Definition newline : ascii := ascii_of_nat 10.

(** [[a-zA-Z0-9_.-]*$] at the current position: Python's [$] (no MULTILINE)
    matches at the end of the string and also just before a newline that is
    the last character. *)
Fixpoint re_class_star_end (s : string) : bool :=
  match s with
  | EmptyString => true
  | String c rest =>
      if allowed_char c then re_class_star_end rest
      else andb (Ascii.eqb c newline) (String.eqb rest "")
  end.

(** [re.match(r"^[a-zA-Z0-9_.-]+$", s)] is not None. *)
Definition re_match_case_name (s : string) : bool :=
  match s with
  | EmptyString => false
  | String c rest => andb (allowed_char c) (re_class_star_end rest)
  end.

Definition validate_case_name (case_name : string) : bool + exn :=
  if String.eqb case_name "" then
    inr (InvalidCaseNameError EmptyCaseName)
  else if negb (re_match_case_name case_name) then
    inr (InvalidCaseNameError (DisallowedCharacter case_name))
  else if Py.str_in ".." case_name then
    inr (InvalidCaseNameError (PathTraversal case_name))
  else inl true.

(** Every character of [s] is in the allow-list. *)
Fixpoint all_allowed (s : string) : bool :=
  match s with
  | EmptyString => true
  | String c rest => andb (allowed_char c) (all_allowed rest)
  end.

(** The spec's reading of the pattern [^[A-Za-z0-9_.-]+$]: one or more
    characters, all from the class. *)
Definition matches_allow_list (s : string) : bool :=
  andb (negb (String.eqb s "")) (all_allowed s).

Definition accepts (case_name : string) : Prop :=
  validate_case_name case_name = inl true.


(** ** The operating system *)

(** How [subprocess.Popen(...)] followed by [communicate(timeout=...)] ends. *)
Inductive process_end :=
| Returned (returncode : Z) (stdout stderr : string)
| RaisedFileNotFound (msg : string)        (* FileNotFoundError from Popen *)
| RaisedTimeout                            (* subprocess.TimeoutExpired from communicate *)
| RaisedOther (type_name msg : string).    (* any other Exception: PermissionError, ValueError, ... *)

(** The environment [main.py] runs in.  [world] is the state of the machine
    (the file system the child scripts read and write); the orchestrator only
    sees it through these calls. *)
Record OS := {
  world : Type;
  PROJECT_ROOT : string;      (* os.path.dirname(os.path.abspath(__file__)) *)
  sys_executable : string;    (* sys.executable *)
  LOG_FILE : string;
  isdir : world -> string -> bool;                       (* os.path.isdir *)
  isfile : world -> string -> bool;                      (* os.path.isfile *)
  makedirs : world -> string -> world * option string;   (* os.makedirs(p, exist_ok=True); Some e: OSError e *)
  popen : world -> list string -> string -> Z -> world * process_end;
                                                         (* Popen(command, cwd=..) and communicate(timeout=..) *)
  kill : world -> world * (string * string)              (* process.kill(); process.communicate() *)
}.

Inductive level := DEBUG | INFO | WARNING | ERROR | CRITICAL.

(** One constructor per [logging] call of the program, carrying the values
    its f-string interpolates. *)
Inductive log_msg :=
(* validate_investigation_exists, stage_0_setup_investigation: str(e) *)
| M_InvalidCaseName (p : case_name_problem)
| M_InvestigationNotFound (investigation_path : string)
| M_PleaseEnsure (case_name investigations_dir : string)
| M_ValidatedDir (investigation_path : string)
(* run_script *)
| M_TargetNotFound (full_script_path : string)
| M_Executing (command : list string) (script_timeout : Z)
| M_Output (script_path_relative case_name stdout : string)
| M_ErrorOutput (script_path_relative case_name : string) (returncode : Z) (stderr : string)
| M_StderrOutput (script_path_relative case_name stderr : string)
| M_ScriptFailed (script_path_relative case_name : string) (returncode : Z)
| M_ScriptCompleted (script_path_relative case_name : string)
| M_ExecutionError (full_script_path : string)
| M_TimeoutExpired (script_timeout : Z) (script_path_relative case_name : string)
| M_FinalStdout (stdout : string)
| M_FinalStderr (stderr : string)
| M_UnexpectedError (script_path_relative case_name : string) (e : caught_exception)
(* the stage functions: "--- STAGE n: ... for case: .. ---" *)
| M_StageBanner (n : Z) (case_name : string) (selector : option string)
| M_EnsuringBase (case_name investigation_path : string)
| M_BaseEnsured (investigation_path : string)
| M_SubdirsEnsured (case_name : string)
| M_MkdirFailed (case_name oserror : string)
| M_Stage0Completed (case_name : string)
| M_NoAcquisitionScripts (source_type : option string)
| M_NoDatashareActions (action : option string)
| M_Stage5Completed (case_name : string)
(* main *)
| M_Rule                                  (* the line of '=' *)
| M_Initializing (case_name : string)
| M_RequestedStages (stages : list string)
| M_GlobalTimeout (script_timeout : Z)
| M_HaltedInvalidCaseName (p : case_name_problem)
| M_ProcessingAll
| M_SkippingStage (stage_name case_name : string)
| M_StartingStage (stage_name case_name : string)
| M_UnknownStage (stage_name : string)
| M_StageCompleted (stage_name case_name : string)
| M_StageFailed (stage_name case_name : string) (e : exn)
| M_UnexpectedCritical (stage_name case_name : string) (e : exn)
| M_WorkflowSucceeded (case_name : string)
| M_WorkflowFailed (case_name : string)
| M_ReviewLogFile (log_file : string).

(** What the program does to the outside, in the order it does it. *)
Inductive event :=
| EvLog (l : level) (m : log_msg)
| EvIsDir (path : string)
| EvIsFile (path : string)
| EvMakedirs (path : string)
| EvPopen (command : list string) (cwd : string) (timeout : Z)
| EvKill.

(** The parsed command line ([argparse.Namespace]). *)
Record Namespace := {
  case_name : string;
  stage : list string;
  script_timeout : Z;
  acquire_type : option string;
  datashare_action : option string;
  parse_type : option string;
  report_type : option string
}.

(** The values [--stage] admits. *)
Definition stage_choices : list string :=
  ["setup"; "acquire"; "datashare"; "parse"; "analyze"; "package"; "all"].

Definition DEFAULT_SCRIPT_TIMEOUT : Z := 7200.

(** [type(e).__name__] and [str(e)] as [run_script] interpolates them. *)
Definition describe (e : exn) : caught_exception :=
  match e with
  | ScriptExecutionError (NonZeroExit r c rc) => CaughtNonZeroExit r c rc
  | OSError m => CaughtOther "OSError" m
  | FileNotFoundError m => CaughtOther "FileNotFoundError" m
  | TimeoutExpired => CaughtOther "TimeoutExpired" ""
  | OtherException n m => CaughtOther n m
  (* the classes below are never raised inside the try of run_script *)
  | OrchestratorError _ => CaughtOther "OrchestratorError" ""
  | SetupError _ => CaughtOther "SetupError" ""
  | StageError _ => CaughtOther "StageError" ""
  | ScriptExecutionError _ => CaughtOther "ScriptExecutionError" ""
  | InvalidCaseNameError _ => CaughtOther "InvalidCaseNameError" ""
  | SystemExit _ => CaughtOther "SystemExit" ""
  end.

(** [isinstance(e, OrchestratorError)]: the class and its four subclasses. *)
Definition is_OrchestratorError (e : exn) : bool :=
  match e with
  | OrchestratorError _ | SetupError _ | StageError _
  | ScriptExecutionError _ | InvalidCaseNameError _ => true
  | _ => false
  end.

(** [isinstance(e, OSError)]. *)
Definition is_OSError (e : exn) : bool :=
  match e with
  | OSError _ | FileNotFoundError _ => true
  | _ => false
  end.

(** [isinstance(e, Exception)]: everything but [SystemExit]. *)
Definition is_Exception (e : exn) : bool :=
  match e with
  | SystemExit _ => false
  | _ => true
  end.

(** [str(e)] of an [OSError]. *)
Definition oserror_text (e : exn) : string :=
  match e with
  | OSError m | FileNotFoundError m => m
  | _ => ""
  end.

(** ** The program *)

Section Orchestrator.

Variable os : OS.

(** *** Effects: state of the world, events emitted, result or exception *)

Record Run (A : Type) := MkRun {
  after : world os;
  emitted : list event;
  outcome : A + exn
}.

Arguments MkRun {A} _ _ _.
Arguments after {A} _.
Arguments emitted {A} _.
Arguments outcome {A} _.

Definition M (A : Type) : Type := world os -> Run A.

Definition ret {A} (a : A) : M A := fun w => MkRun w [] (inl a).

Definition raise {A} (e : exn) : M A := fun w => MkRun w [] (inr e).

Definition bind {A B} (m : M A) (f : A -> M B) : M B :=
  fun w =>
    let r := m w in
    match outcome r with
    | inl a =>
        let r' := f a (after r) in
        MkRun (after r') (emitted r ++ emitted r')%list (outcome r')
    | inr e => MkRun (after r) (emitted r) (inr e)
    end.

(** [try: m except ...: h]; [h e = None] when no clause matches [e]. *)
Definition try_except {A} (m : M A) (h : exn -> option (M A)) : M A :=
  fun w =>
    let r := m w in
    match outcome r with
    | inl _ => r
    | inr e =>
        match h e with
        | Some k =>
            let r' := k (after r) in
            MkRun (after r') (emitted r ++ emitted r')%list (outcome r')
        | None => r
        end
    end.

Definition emit (e : event) : M unit := fun w => MkRun w [e] (inl tt).

Definition lift {A} (r : A + exn) : M A := fun w => MkRun w [] r.

Notation "x <- m ;; k" := (bind m (fun x => k))
  (at level 61, m at next level, right associativity).
Notation "m ;; k" := (bind m (fun _ => k))
  (at level 61, right associativity).

Definition log (l : level) (m : log_msg) : M unit := emit (EvLog l m).

Definition when (b : bool) (m : M unit) : M unit := if b then m else ret tt.

(** *** System calls *)

Definition os_path_isdir (p : string) : M bool :=
  fun w => MkRun w [EvIsDir p] (inl (isdir os w p)).

Definition os_path_isfile (p : string) : M bool :=
  fun w => MkRun w [EvIsFile p] (inl (isfile os w p)).

Definition os_makedirs (p : string) : M unit :=
  fun w =>
    let '(w', r) := makedirs os w p in
    MkRun w' [EvMakedirs p]
      match r with
      | None => inl tt
      | Some msg => inr (OSError msg)
      end.

(** [Popen(command, ..., cwd=cwd)] then [communicate(timeout=timeout)]:
    the return code, stdout and stderr. *)
Definition Popen_communicate (command : list string) (cwd : string) (timeout : Z)
  : M (Z * string * string) :=
  fun w =>
    let '(w', r) := popen os w command cwd timeout in
    MkRun w' [EvPopen command cwd timeout]
      match r with
      | Returned rc out err => inl (rc, out, err)
      | RaisedFileNotFound msg => inr (FileNotFoundError msg)
      | RaisedTimeout => inr TimeoutExpired
      | RaisedOther n msg => inr (OtherException n msg)
      end.

(** [process.kill()] then [process.communicate()]. *)
Definition kill_communicate : M (string * string) :=
  fun w =>
    let '(w', r) := kill os w in
    MkRun w' [EvKill] (inl r).

(** *** Configuration *)

Definition INVESTIGATIONS_DIR : string := Py.path_join (PROJECT_ROOT os) "investigations".
Definition SCRIPTS_DIR : string := Py.path_join (PROJECT_ROOT os) "scripts".

Definition nonempty (s : string) : bool := negb (String.eqb s "").

(** *** Helper functions *)

Definition validate_investigation_exists (case_name : string) : M bool :=
  valid <- try_except
             (lift (validate_case_name case_name) ;; ret true)
             (fun e => match e with
                       | InvalidCaseNameError p =>
                           Some (log ERROR (M_InvalidCaseName p) ;; ret false)
                       | _ => None
                       end) ;;
  if negb valid then ret false
  else
    let investigation_path := Py.path_join INVESTIGATIONS_DIR case_name in
    found <- os_path_isdir investigation_path ;;
    if negb found then
      log ERROR (M_InvestigationNotFound investigation_path) ;;
      log ERROR (M_PleaseEnsure case_name INVESTIGATIONS_DIR) ;;
      ret false
    else
      log DEBUG (M_ValidatedDir investigation_path) ;;
      ret true.

Definition run_script (script_path_relative case_name : string)
    (script_timeout : Z) (args : list string) : M bool :=
  let full_script_path := Py.path_join SCRIPTS_DIR script_path_relative in
  found <- os_path_isfile full_script_path ;;
  if negb found then
    log ERROR (M_TargetNotFound full_script_path) ;;
    raise (ScriptExecutionError (TargetNotFound full_script_path))
  else
    let command :=
      if Py.endswith full_script_path ".py"
      then ([sys_executable os; full_script_path; case_name] ++ args)%list
      else ([full_script_path; case_name] ++ args)%list in
    log INFO (M_Executing command script_timeout) ;;
    try_except
      (p <- Popen_communicate command (PROJECT_ROOT os) script_timeout ;;
       let '(returncode, stdout, stderr) := p in
       when (nonempty stdout)
         (log INFO (M_Output script_path_relative case_name stdout)) ;;
       when (nonempty stderr)
         (if negb (returncode =? 0)
          then log ERROR (M_ErrorOutput script_path_relative case_name returncode stderr)
          else log INFO (M_StderrOutput script_path_relative case_name stderr)) ;;
       if negb (returncode =? 0) then
         log ERROR (M_ScriptFailed script_path_relative case_name returncode) ;;
         raise (ScriptExecutionError
                  (NonZeroExit script_path_relative case_name returncode))
       else
         log INFO (M_ScriptCompleted script_path_relative case_name) ;;
         ret true)
      (fun e =>
         match e with
         | FileNotFoundError _ =>
             Some (log ERROR (M_ExecutionError full_script_path) ;;
                   raise (ScriptExecutionError (ExecutionNotFound full_script_path)))
         | TimeoutExpired =>
             Some (p <- kill_communicate ;;
                   let '(stdout, stderr) := p in
                   log ERROR (M_TimeoutExpired script_timeout script_path_relative case_name) ;;
                   when (nonempty stdout) (log INFO (M_FinalStdout stdout)) ;;
                   when (nonempty stderr) (log ERROR (M_FinalStderr stderr)) ;;
                   raise (ScriptExecutionError
                            (TimedOut script_path_relative case_name)))
         | _ =>
             if is_Exception e then
               Some (log ERROR (M_UnexpectedError script_path_relative case_name (describe e)) ;;
                     raise (ScriptExecutionError
                              (Unexpected script_path_relative case_name (describe e))))
             else None
         end).

(** *** Workflow stages *)

Definition standard_subdirs : list string :=
  [ "00_source_documents/irs_990s/pdfs"; "00_source_documents/irs_990s/xmls";
    "00_source_documents/corporate_filings"; "00_source_documents/property_records_raw";
    "00_source_documents/legal_documents"; "00_source_documents/campaign_finance";
    "00_source_documents/lobbying_records"; "00_source_documents/media_clippings_and_web_archives";
    "00_source_documents/other_public_records";
    "01_datashare_outputs/extracted_text"; "01_datashare_outputs/ner_results";
    "02_parsed_and_structured_data/irs_990_parsed"; "02_parsed_and_structured_data/corporate_parsed";
    "02_parsed_and_structured_data/property_parsed"; "02_parsed_and_structured_data/campaign_finance_parsed";
    "02_parsed_and_structured_data/lobbying_parsed";
    "03_analysis_and_reports";
    "04_findings_and_narrative" ].

(** [for sub_dir_path_relative in subdirs: ... os.makedirs(full_sub_dir_path, exist_ok=True)] *)
Fixpoint make_subdirs (investigation_path : string) (subdirs : list string) : M unit :=
  match subdirs with
  | [] => ret tt
  | sub_dir_path_relative :: rest =>
      let full_sub_dir_path :=
        fold_left Py.path_join (Py.split "/" sub_dir_path_relative) investigation_path in
      os_makedirs full_sub_dir_path ;;
      make_subdirs investigation_path rest
  end.

Definition stage_0_setup_investigation (case_name : string) (script_timeout : Z) : M bool :=
  log INFO (M_StageBanner 0 case_name None) ;;
  try_except
    (lift (validate_case_name case_name) ;; ret tt)
    (fun e => match e with
              | InvalidCaseNameError p =>
                  Some (log ERROR (M_InvalidCaseName p) ;;
                        raise (SetupError (SetupBadName p)))
              | _ => None
              end) ;;
  let investigation_path := Py.path_join INVESTIGATIONS_DIR case_name in
  try_except
    (log INFO (M_EnsuringBase case_name investigation_path) ;;
     os_makedirs investigation_path ;;
     log INFO (M_BaseEnsured investigation_path) ;;
     make_subdirs investigation_path standard_subdirs ;;
     log INFO (M_SubdirsEnsured case_name))
    (fun e =>
       if is_OSError e then
         Some (log ERROR (M_MkdirFailed case_name (oserror_text e)) ;;
               raise (SetupError (SetupMkdirFailed case_name (oserror_text e))))
       else None) ;;
  log INFO (M_Stage0Completed case_name) ;;
  ret true.

(** The body of the stages' loops,
    [try: run_script(script_rel_path, case_name, script_timeout, *script_args)
     except ScriptExecutionError: overall_stage_success = False];
    the result is [overall_stage_success] after it. *)
Definition try_run_script (script_rel_path : string) (script_args : list string)
    (case_name : string) (script_timeout : Z) (overall_stage_success : bool) : M bool :=
  try_except
    (run_script script_rel_path case_name script_timeout script_args ;;
     ret overall_stage_success)
    (fun e => match e with
              | ScriptExecutionError _ => Some (ret false)
              | _ => None
              end).

(** [for script_rel_path, script_args in scripts: try: ... except ...] *)
Fixpoint for_scripts (scripts : list (string * list string)) (case_name : string)
    (script_timeout : Z) (overall_stage_success : bool) : M bool :=
  match scripts with
  | [] => ret overall_stage_success
  | (script_rel_path, script_args) :: rest =>
      success <- try_run_script script_rel_path script_args case_name
                   script_timeout overall_stage_success ;;
      for_scripts rest case_name script_timeout success
  end.

(** [x == s] for an optional command-line value. *)
Definition is_value (x : option string) (s : string) : bool :=
  match x with
  | None => false
  | Some v => String.eqb v s
  end.

(** [x is None] *)
Definition is_None (x : option string) : bool :=
  match x with None => true | Some _ => false end.

(** [x == s or x == 'all' or x is None] *)
Definition selects (x : option string) (s : string) : bool :=
  is_value x s || is_value x "all" || is_None x.

(** [x == 'all' or x is None] *)
Definition all_or_unset (x : option string) : bool :=
  is_value x "all" || is_None x.

Definition no_args (scripts : list string) : list (string * list string) :=
  map (fun s => (s, @nil string)) scripts.

Definition is_nil {A} (l : list A) : bool :=
  match l with [] => true | _ => false end.

Definition stage_1_acquire_source_documents (case_name : string)
    (source_type : option string) (script_timeout : Z) : M bool :=
  log INFO (M_StageBanner 1 case_name source_type) ;;
  ok <- validate_investigation_exists case_name ;;
  if negb ok then raise (StageError (InvestigationMissing "acquire" case_name))
  else
    let scripts_to_run :=
      if selects source_type "irs_990s" then ["scraping/fetch_irs_990_forms.py"] else [] in
    if is_nil scripts_to_run then
      log WARNING (M_NoAcquisitionScripts source_type) ;;
      ret true
    else for_scripts (no_args scripts_to_run) case_name script_timeout true.

Definition stage_2_datashare_processing (case_name : string)
    (action : option string) (script_timeout : Z) : M bool :=
  log INFO (M_StageBanner 2 case_name action) ;;
  ok <- validate_investigation_exists case_name ;;
  if negb ok then raise (StageError (InvestigationMissing "datashare" case_name))
  else
    let actions_to_perform :=
      if selects action "create_project"
      then [("datashare_interactions/create_datashare_project.py", @nil string)] else [] in
    if is_nil actions_to_perform then
      log WARNING (M_NoDatashareActions action) ;;
      ret true
    else for_scripts actions_to_perform case_name script_timeout true.

Definition stage_3_parse_and_structure_data (case_name : string)
    (document_type : option string) (script_timeout : Z) : M bool :=
  log INFO (M_StageBanner 3 case_name document_type) ;;
  ok <- validate_investigation_exists case_name ;;
  if negb ok then raise (StageError (InvestigationMissing "parse" case_name))
  else
    let scripts_to_run :=
      if selects document_type "irs_990s" then ["parsers/parse_irs_990xml.py"] else [] in
    overall_stage_success <-
      for_scripts (no_args scripts_to_run) case_name script_timeout true ;;
    if all_or_unset document_type then
      try_run_script "analysis/entity_resolution.py" [] case_name script_timeout
        overall_stage_success
    else ret overall_stage_success.

Definition stage_4_analysis_and_reporting (case_name : string)
    (report_type : option string) (script_timeout : Z) : M bool :=
  log INFO (M_StageBanner 4 case_name report_type) ;;
  ok <- validate_investigation_exists case_name ;;
  if negb ok then raise (StageError (InvestigationMissing "analyze" case_name))
  else
    let scripts_to_run :=
      if selects report_type "connections"
      then ["analysis/generate_connections_report.py"] else [] in
    for_scripts (no_args scripts_to_run) case_name script_timeout true.

Definition stage_5_package_for_review (case_name : string) (script_timeout : Z) : M bool :=
  log INFO (M_StageBanner 5 case_name None) ;;
  ok <- validate_investigation_exists case_name ;;
  if negb ok then raise (StageError (InvestigationMissing "package" case_name))
  else
    log INFO (M_Stage5Completed case_name) ;;
    ret true.

(** *** Main execution logic *)

Definition canonical_stages : list string :=
  ["setup"; "acquire"; "datashare"; "parse"; "analyze"; "package"].

Definition sys_exit {A} (code : Z) : M A := raise (SystemExit code).

(** The [if]/[elif] chain that calls the stage function of [stage_name]. *)
Definition dispatch (args : Namespace) (stage_name : string) : M bool :=
  let case_name := case_name args in
  let script_timeout := script_timeout args in
  if String.eqb stage_name "setup" then
    stage_0_setup_investigation case_name script_timeout
  else if String.eqb stage_name "acquire" then
    stage_1_acquire_source_documents case_name (acquire_type args) script_timeout
  else if String.eqb stage_name "datashare" then
    stage_2_datashare_processing case_name (datashare_action args) script_timeout
  else if String.eqb stage_name "parse" then
    stage_3_parse_and_structure_data case_name (parse_type args) script_timeout
  else if String.eqb stage_name "analyze" then
    stage_4_analysis_and_reporting case_name (report_type args) script_timeout
  else if String.eqb stage_name "package" then
    stage_5_package_for_review case_name script_timeout
  else
    log ERROR (M_UnknownStage stage_name) ;;
    raise (OrchestratorError stage_name).

(** One iteration of [for stage_name in stages_to_run_ordered]; the result is
    [overall_workflow_success] after it. *)
Definition run_stage (args : Namespace) (overall_workflow_success : bool)
    (stage_name : string) : M bool :=
  let case_name := case_name args in
  try_except
    (if negb overall_workflow_success && negb (Py.list_in stage_name ["setup"]) then
       log WARNING (M_SkippingStage stage_name case_name) ;;
       ret overall_workflow_success                                  (* continue *)
     else
       log INFO (M_StartingStage stage_name case_name) ;;
       current_stage_success <- dispatch args stage_name ;;
       if negb current_stage_success then
         raise (StageError (ReportedFailure stage_name case_name))
       else
         log INFO (M_StageCompleted stage_name case_name) ;;
         ret overall_workflow_success)
    (fun e =>
       if is_OrchestratorError e then
         Some (log ERROR (M_StageFailed stage_name case_name e) ;; ret false)
       else if is_Exception e then
         Some (log CRITICAL (M_UnexpectedCritical stage_name case_name e) ;; ret false)
       else None).

Fixpoint for_stages (args : Namespace) (stages_to_run_ordered : list string)
    (overall_workflow_success : bool) : M bool :=
  match stages_to_run_ordered with
  | [] => ret overall_workflow_success
  | stage_name :: rest =>
      success <- run_stage args overall_workflow_success stage_name ;;
      for_stages args rest success
  end.

(** [stages_to_run_ordered] of [main]. *)
Definition stages_to_run_ordered (stages_to_run_input : list string) : list string :=
  if Py.list_in "all" stages_to_run_input then canonical_stages
  else stages_to_run_input.

(** [main()], after [parser.parse_args()]. *)
Definition main (args : Namespace) : M unit :=
  let case_name := case_name args in
  let stages_to_run_input := stage args in
  let script_timeout := script_timeout args in
  log INFO M_Rule ;;
  log INFO (M_Initializing case_name) ;;
  log INFO (M_RequestedStages stages_to_run_input) ;;
  log INFO (M_GlobalTimeout script_timeout) ;;
  log INFO M_Rule ;;
  try_except
    (lift (validate_case_name case_name) ;; ret tt)
    (fun e => match e with
              | InvalidCaseNameError p =>
                  Some (log ERROR (M_HaltedInvalidCaseName p) ;; sys_exit 1)
              | _ => None
              end) ;;
  when (Py.list_in "all" stages_to_run_input) (log INFO M_ProcessingAll) ;;
  overall_workflow_success <-
    for_stages args (stages_to_run_ordered stages_to_run_input) true ;;
  log INFO M_Rule ;;
  (if overall_workflow_success then
     log INFO (M_WorkflowSucceeded case_name)
   else
     log ERROR (M_WorkflowFailed case_name) ;;
     log ERROR (M_ReviewLogFile (LOG_FILE os)) ;;
     sys_exit 1) ;;
  log INFO M_Rule.

(** The status the interpreter exits with: 0 when [main] returns, the code
    of [sys.exit], 1 for an uncaught exception. *)
Definition exit_code (r : Run unit) : Z :=
  match outcome r with
  | inl _ => 0
  | inr (SystemExit code) => code
  | inr _ => 1
  end.

End Orchestrator.

Arguments MkRun {os A} _ _ _.
Arguments after {os A} _.
Arguments emitted {os A} _.
Arguments outcome {os A} _.
Arguments exit_code {os} r.

(** ** Reading a run's events *)

(** The stage function whose first statement logs banner [n]. *)
Definition banner_stage (n : Z) : string :=
  match n with
  | 0 => "setup"
  | 1 => "acquire"
  | 2 => "datashare"
  | 3 => "parse"
  | 4 => "analyze"
  | _ => "package"
  end.

(** The stage functions entered, in order: each logs its banner first. *)
Fixpoint calls (tr : list event) : list string :=
  match tr with
  | [] => []
  | EvLog _ (M_StageBanner n _ _) :: rest => banner_stage n :: calls rest
  | _ :: rest => calls rest
  end.

(** The scripts [run_script] was asked to run, in order: it tests each for
    existence first. *)
Fixpoint scripts_tried (tr : list event) : list string :=
  match tr with
  | [] => []
  | EvIsFile p :: rest => p :: scripts_tried rest
  | _ :: rest => scripts_tried rest
  end.

(** The command lines of the child processes launched, in order. *)
Fixpoint launches (tr : list event) : list (list string) :=
  match tr with
  | [] => []
  | EvPopen command _ _ :: rest => command :: launches rest
  | _ :: rest => launches rest
  end.

(** The directories [os.makedirs] was called on. *)
Fixpoint directories_made (tr : list event) : list string :=
  match tr with
  | [] => []
  | EvMakedirs p :: rest => p :: directories_made rest
  | _ :: rest => directories_made rest
  end.

Inductive stage_outcome := Succeeded | Skipped | Failed.

(** The WorkflowResult of a run, as the log records it: one entry per
    iteration of the stage loop. *)
Fixpoint workflow_result (tr : list event) : list (string * stage_outcome) :=
  match tr with
  | [] => []
  | EvLog _ (M_StageCompleted s _) :: rest => (s, Succeeded) :: workflow_result rest
  | EvLog _ (M_SkippingStage s _) :: rest => (s, Skipped) :: workflow_result rest
  | EvLog _ (M_StageFailed s _ _) :: rest => (s, Failed) :: workflow_result rest
  | EvLog _ (M_UnexpectedCritical s _ _) :: rest => (s, Failed) :: workflow_result rest
  | _ :: rest => workflow_result rest
  end.

Definition is_skipped (o : stage_outcome) : bool :=
  match o with Skipped => true | _ => false end.

Definition is_failed (o : stage_outcome) : bool :=
  match o with Failed => true | _ => false end.

(** The stages of a result that were attempted, and those that were skipped. *)
Definition attempted (wr : list (string * stage_outcome)) : list string :=
  map fst (filter (fun p => negb (is_skipped (snd p))) wr).

Definition skipped (wr : list (string * stage_outcome)) : list string :=
  map fst (filter (fun p => is_skipped (snd p)) wr).

(** Events that are neither a stage banner nor a record of the stage loop. *)
Definition inner_event (e : event) : bool :=
  match e with
  | EvLog _ (M_StageBanner _ _ _) | EvLog _ (M_StageCompleted _ _)
  | EvLog _ (M_SkippingStage _ _) | EvLog _ (M_StageFailed _ _ _)
  | EvLog _ (M_UnexpectedCritical _ _ _) => false
  | _ => true
  end.

(** Events that touch nothing outside the log. *)
Definition log_only (e : event) : bool :=
  match e with EvLog _ _ => true | _ => false end.

(** Events other than a test for a script, the launch of a child or the
    making of a directory. *)
Definition passive_event (e : event) : bool :=
  match e with
  | EvIsFile _ | EvPopen _ _ _ | EvKill | EvMakedirs _ => false
  | _ => true
  end.

Definition succeeded {A} (r : A + exn) : bool :=
  match r with inl _ => true | inr _ => false end.

(** The success of each invocation of a list, run one after the other from
    world [w]. *)
Fixpoint invocation_results (os : OS) (scripts : list (string * list string))
    (case_name : string) (script_timeout : Z) (w : world os) : list bool :=
  match scripts with
  | [] => []
  | (rel, script_args) :: rest =>
      let r := run_script os rel case_name script_timeout script_args w in
      succeeded (outcome r)
        :: invocation_results os rest case_name script_timeout (after r)
  end.

Definition has_stage_function (s : string) : bool := Py.list_in s canonical_stages.

(** Run [r] of stage [stage_name], started in world [w], raised the stage
    error for a missing investigation without looking for a script,
    launching a child, making a directory or changing the world. *)
Definition fails_without_child {os : OS} (stage_name case_name : string)
    (w : world os) (r : Run os bool) : Prop :=
  outcome r = inr (StageError (InvestigationMissing stage_name case_name)) /\
  scripts_tried (emitted r) = [] /\
  launches (emitted r) = [] /\
  directories_made (emitted r) = [] /\
  after r = w.

Definition any_failed (wr : list (string * stage_outcome)) : bool :=
  existsb (fun p => is_failed (snd p)) wr.

(** The failure policy of the stage loop, read on a result: an entry is
    skipped exactly when the run was no longer successful ([ok] false, or an
    earlier entry failed) and its stage is not [setup]. *)
Fixpoint follows_policy (ok : bool) (wr : list (string * stage_outcome)) : bool :=
  match wr with
  | [] => true
  | (s, o) :: rest =>
      Bool.eqb (is_skipped o) (negb ok && negb (String.eqb s "setup"))
      && follows_policy (ok && negb (is_failed o)) rest
  end.

(** [m] emits only events of [P] and raises only exceptions of [Q]. *)
Definition obeys (os : OS) (P : event -> bool) {A} (Q : exn -> bool)
    (m : M os A) : Prop :=
  forall w,
    forallb P (emitted (m w)) = true /\
    (forall e, outcome (m w) = inr e -> Q e = true).

(** ** Further readings of a run *)

(** The command line [run_script] builds for a script. *)
Definition script_command (os : OS) (script_path_relative case_name : string)
    (args : list string) : list string :=
  let full_script_path := Py.path_join (SCRIPTS_DIR os) script_path_relative in
  if Py.endswith full_script_path ".py"
  then ([sys_executable os; full_script_path; case_name] ++ args)%list
  else ([full_script_path; case_name] ++ args)%list.

(** The child processes launched, each with its command line, working
    directory and timeout. *)
Fixpoint launch_records (tr : list event) : list (list string * string * Z) :=
  match tr with
  | [] => []
  | EvPopen command cwd timeout :: rest => (command, cwd, timeout) :: launch_records rest
  | _ :: rest => launch_records rest
  end.

(** How many times a child process was killed. *)
Fixpoint kills (tr : list event) : nat :=
  match tr with
  | [] => O
  | EvKill :: rest => S (kills rest)
  | _ :: rest => kills rest
  end.

(** The paths [os.path.isdir] was asked about. *)
Fixpoint dir_tests (tr : list event) : list string :=
  match tr with
  | [] => []
  | EvIsDir p :: rest => p :: dir_tests rest
  | _ :: rest => dir_tests rest
  end.

(** The warnings logged. *)
Fixpoint warnings (tr : list event) : list log_msg :=
  match tr with
  | [] => []
  | EvLog WARNING m :: rest => m :: warnings rest
  | _ :: rest => warnings rest
  end.

(** Events other than the making of a directory. *)
Definition no_makedirs (e : event) : bool :=
  match e with EvMakedirs _ => false | _ => true end.

(** Events other than the test for a script, the launch of a child and its
    killing. *)
Definition no_child (e : event) : bool :=
  match e with
  | EvIsFile _ | EvPopen _ _ _ | EvKill => false
  | _ => true
  end.

(** [os.path.join(INVESTIGATIONS_DIR, case_name)] *)
Definition investigation_path (os : OS) (case_name : string) : string :=
  Py.path_join (INVESTIGATIONS_DIR os) case_name.

(** The directory tree of a case: its root, then each standard
    subdirectory below it. *)
Definition case_layout (os : OS) (case_name : string) : list string :=
  investigation_path os case_name
  :: map (fun d => investigation_path os case_name ++ "/" ++ d) standard_subdirs.

(** Classes of events a predicate on events lets through. *)
Definition allows_logs (P : event -> bool) : Prop :=
  forall l m, P (EvLog l m) = true.

Definition allows_dir_tests (P : event -> bool) : Prop :=
  forall p, P (EvIsDir p) = true.

Definition allows_scripts (P : event -> bool) : Prop :=
  (forall p, P (EvIsFile p) = true) /\
  (forall command cwd timeout, P (EvPopen command cwd timeout) = true) /\
  P EvKill = true.

Definition allows_makedirs (P : event -> bool) : Prop :=
  forall p, P (EvMakedirs p) = true.

(** [isinstance(e, SetupError)] *)
Definition is_SetupError (e : exn) : bool :=
  match e with SetupError _ => true | _ => false end.



(** The path the setup stage builds for a standard subdirectory: the parts
    of the relative path joined one by one onto the investigation path. *)
Definition subdir_path (investigation_path sub_dir_path_relative : string) : string :=
  fold_left Py.path_join (Py.split "/" sub_dir_path_relative) investigation_path.

(** A path component that is not empty and neither starts nor ends with a
    separator. *)
Definition plain_part (x : string) : bool :=
  negb (Py.startswith x "/") && negb (String.eqb x "") && negb (Py.endswith x "/").

(** The components of a relative path, each behind a separator. *)
Fixpoint below (parts : list string) : string :=
  match parts with
  | [] => ""
  | x :: rest => "/" ++ x ++ below rest
  end.

(** A relative path whose components are plain and spell the path again
    when put back together. *)
Definition plain_relative (d : string) : bool :=
  forallb plain_part (Py.split "/" d)
  && String.eqb (below (Py.split "/" d)) ("/" ++ d).

(** The last character of a string. *)
Fixpoint last_char (s : string) : option ascii :=
  match s with
  | EmptyString => None
  | String c EmptyString => Some c
  | String _ rest => last_char rest
  end.

(** What the program expects of [os.makedirs] and [os.path.isdir]: a
    directory made exists afterwards, and making directories removes none. *)
Definition makedirs_creates (os : OS) : Prop :=
  forall w p w', makedirs os w p = (w', None) -> isdir os w' p = true.

Definition makedirs_keeps (os : OS) : Prop :=
  forall w p w' r q,
    makedirs os w p = (w', r) -> isdir os w q = true -> isdir os w' q = true.

(** ** A small machine to run the program on *)

Module Toy.

(** A machine whose state is the list of directories that exist.  [files]
    are the regular files, [mkdir_error] makes every [os.makedirs] fail with
    that text, and every child process ends as [child] says. *)
Definition machine (files : list string) (mkdir_error : option string)
    (child : process_end) : OS :=
  {| world := list string;
     PROJECT_ROOT := "/opt/irs990";
     sys_executable := "/usr/bin/python3";
     LOG_FILE := "/opt/irs990/logs/orchestrator_20240101_000000.log";
     isdir := fun w p => Py.list_in p w;
     isfile := fun _ p => Py.list_in p files;
     makedirs := fun w p =>
       match mkdir_error with
       | Some e => (w, Some e)
       | None => (if Py.list_in p w then w else p :: w, None)
       end;
     popen := fun w _ _ _ => (w, child);
     kill := fun w => (w, ("", "")) |}.

Definition all_scripts : list string :=
  [ "/opt/irs990/scripts/scraping/fetch_irs_990_forms.py";
    "/opt/irs990/scripts/datashare_interactions/create_datashare_project.py";
    "/opt/irs990/scripts/parsers/parse_irs_990xml.py";
    "/opt/irs990/scripts/analysis/entity_resolution.py";
    "/opt/irs990/scripts/analysis/generate_connections_report.py" ].

(** Every script is installed and exits with status 0. *)
Definition healthy : OS := machine all_scripts None (Returned 0 "done" "").


(** No directory can be created. *)
Definition read_only : OS := machine all_scripts (Some "Read-only file system") (Returned 0 "" "").

(** No script is installed. *)
Definition no_scripts : OS := machine [] None (Returned 0 "" "").

Definition request (case : string) (stages : list string) : Namespace :=
  {| case_name := case; stage := stages; script_timeout := DEFAULT_SCRIPT_TIMEOUT;
     acquire_type := None; datashare_action := None;
     parse_type := None; report_type := None |}.

End Toy.

(** ** Properties of the validator *)

Lemma validate_case_name_cases (s : string) :
  validate_case_name s = inl true \/
  exists p, validate_case_name s = inr (InvalidCaseNameError p).
Proof.
  unfold validate_case_name.
  destruct (String.eqb s ""); [right; eauto|].
  destruct (negb (re_match_case_name s)); [right; eauto|].
  destruct (Py.str_in ".." s); [right; eauto | now left].
Qed.

Lemma str_in_single_empty (c : ascii) : Py.str_in (String c "") "" = false.
Proof. reflexivity. Qed.

Lemma str_in_single_cons (c a : ascii) (rest : string) :
  Py.str_in (String c "") (String a rest) = true ->
  c = a \/ Py.str_in (String c "") rest = true.
Proof.
  cbn [Py.str_in String.prefix].
  destruct (ascii_dec c a) as [->|]; [now left | now right].
Qed.

(** A character outside the class, other than the newline, makes the
    pattern fail wherever it stands. *)
Lemma class_star_end_excludes (c : ascii) (s : string) :
  allowed_char c = false -> c <> newline ->
  Py.str_in (String c "") s = true -> re_class_star_end s = false.
Proof.
  intros Hc Hn. induction s as [|a rest IH]; intros Hin.
  - discriminate.
  - apply str_in_single_cons in Hin. cbn [re_class_star_end].
    destruct Hin as [<-|Hin].
    + rewrite Hc. destruct (Ascii.eqb_spec c newline); [contradiction | reflexivity].
    + rewrite (IH Hin). destruct (allowed_char a); [reflexivity|].
      destruct rest; [discriminate Hin|].
      cbn. apply andb_false_r.
Qed.

Lemma re_match_excludes (c : ascii) (s : string) :
  allowed_char c = false -> c <> newline ->
  Py.str_in (String c "") s = true -> re_match_case_name s = false.
Proof.
  intros Hc Hn Hin. destruct s as [|a rest]; [reflexivity|].
  cbn [re_match_case_name].
  apply str_in_single_cons in Hin. destruct Hin as [<-|Hin].
  - now rewrite Hc.
  - rewrite (class_star_end_excludes c rest Hc Hn Hin). apply andb_false_r.
Qed.

Lemma all_allowed_class_star_end (s : string) :
  all_allowed s = true -> re_class_star_end s = true.
Proof.
  induction s as [|a rest IH]; [reflexivity|].
  cbn. intros H. apply andb_prop in H. destruct H as [Ha Hr].
  rewrite Ha. auto.
Qed.

Lemma matches_allow_list_re_match (s : string) :
  matches_allow_list s = true -> re_match_case_name s = true.
Proof.
  unfold matches_allow_list. destruct s as [|a rest]; [discriminate|].
  cbn. intros H. apply andb_prop in H. destruct H as [Ha Hr].
  rewrite Ha. now apply all_allowed_class_star_end.
Qed.






(** Python's [$] also matches before a final newline, so a name that ends
    in one passes the validator. *)
Example validate_case_name_trailing_newline :
  validate_case_name (String "a" (String newline "")) = inl true.
Proof. reflexivity. Qed.

(** ** Reading events off a concatenation *)

Local Open Scope list_scope.

Lemma calls_app (a b : list event) : calls (a ++ b) = calls a ++ calls b.
Proof.
  induction a as [|e a IH]; [reflexivity|].
  destruct e as [l m| | | | |]; cbn; try exact IH.
  destruct m; cbn; try exact IH. now rewrite IH.
Qed.

Lemma workflow_result_app (a b : list event) :
  workflow_result (a ++ b) = workflow_result a ++ workflow_result b.
Proof.
  induction a as [|e a IH]; [reflexivity|].
  destruct e as [l m| | | | |]; cbn; try exact IH.
  destruct m; cbn; try exact IH; now rewrite IH.
Qed.

Lemma scripts_tried_app (a b : list event) :
  scripts_tried (a ++ b) = scripts_tried a ++ scripts_tried b.
Proof.
  induction a as [|e a IH]; [reflexivity|].
  destruct e; cbn; try exact IH. now rewrite IH.
Qed.

Lemma launches_app (a b : list event) :
  launches (a ++ b) = launches a ++ launches b.
Proof.
  induction a as [|e a IH]; [reflexivity|].
  destruct e; cbn; try exact IH. now rewrite IH.
Qed.

Lemma directories_made_app (a b : list event) :
  directories_made (a ++ b) = directories_made a ++ directories_made b.
Proof.
  induction a as [|e a IH]; [reflexivity|].
  destruct e; cbn; try exact IH. now rewrite IH.
Qed.

Lemma inner_events_calls (tr : list event) :
  forallb inner_event tr = true -> calls tr = [].
Proof.
  induction tr as [|e tr IH]; [reflexivity|].
  cbn [forallb]. intros H. apply andb_prop in H. destruct H as [He Ht].
  destruct e as [l m| | | | |]; cbn; auto.
  destruct m; cbn; auto; discriminate He.
Qed.

Lemma inner_events_workflow_result (tr : list event) :
  forallb inner_event tr = true -> workflow_result tr = [].
Proof.
  induction tr as [|e tr IH]; [reflexivity|].
  cbn [forallb]. intros H. apply andb_prop in H. destruct H as [He Ht].
  destruct e as [l m| | | | |]; cbn; auto.
  destruct m; cbn; auto; discriminate He.
Qed.

Lemma passive_events_scripts_tried (tr : list event) :
  forallb passive_event tr = true -> scripts_tried tr = [].
Proof.
  induction tr as [|e tr IH]; [reflexivity|].
  cbn [forallb]. intros H. apply andb_prop in H. destruct H as [He Ht].
  destruct e; cbn; auto; discriminate He.
Qed.

Lemma passive_events_launches (tr : list event) :
  forallb passive_event tr = true -> launches tr = [].
Proof.
  induction tr as [|e tr IH]; [reflexivity|].
  cbn [forallb]. intros H. apply andb_prop in H. destruct H as [He Ht].
  destruct e; cbn; auto; discriminate He.
Qed.

Lemma passive_events_directories_made (tr : list event) :
  forallb passive_event tr = true -> directories_made tr = [].
Proof.
  induction tr as [|e tr IH]; [reflexivity|].
  cbn [forallb]. intros H. apply andb_prop in H. destruct H as [He Ht].
  destruct e; cbn; auto; discriminate He.
Qed.

(** ** Computations that only emit allowed events and raise allowed errors *)

Section Obeys.

Variable os : OS.
Variable P : event -> bool.

Lemma obeys_ret {A} Q (a : A) : obeys os P Q (ret os a).
Proof. intros w. split; [reflexivity | discriminate]. Qed.

Lemma obeys_raise {A} (Q : exn -> bool) (e : exn) :
  Q e = true -> obeys os P Q (@raise os A e).
Proof.
  intros HQ w. split; [reflexivity|].
  cbn. intros e' H. now inversion H; subst.
Qed.

Lemma obeys_emit Q (e : event) : P e = true -> obeys os P Q (emit os e).
Proof.
  intros HP w. split; [cbn; now rewrite HP | discriminate].
Qed.

Lemma obeys_log Q l m : P (EvLog l m) = true -> obeys os P Q (log os l m).
Proof. apply obeys_emit. Qed.

Lemma obeys_lift {A} (Q : exn -> bool) (r : A + exn) :
  (forall e, r = inr e -> Q e = true) -> obeys os P Q (lift os r).
Proof. intros H w. split; [reflexivity | exact H]. Qed.

Lemma obeys_bind {A B} Q (m : M os A) (f : A -> M os B) :
  obeys os P Q m -> (forall a, obeys os P Q (f a)) -> obeys os P Q (bind os m f).
Proof.
  intros Hm Hf w. unfold bind. destruct (Hm w) as [Hem Hom].
  destruct (outcome (m w)) as [a|e] eqn:Ho; cbn.
  - destruct (Hf a (after (m w))) as [Hef Hof].
    split; [rewrite forallb_app, Hem, Hef; reflexivity | exact Hof].
  - split; [exact Hem|]. intros e' H. inversion H; subst. now apply Hom.
Qed.

Lemma obeys_try {A} Q' Q (m : M os A) (h : exn -> option (M os A)) :
  obeys os P Q' m ->
  (forall e, Q' e = true ->
     match h e with Some k => obeys os P Q k | None => Q e = true end) ->
  obeys os P Q (try_except os m h).
Proof.
  intros Hm Hh w. unfold try_except. destruct (Hm w) as [Hem Hom].
  destruct (outcome (m w)) as [a|e] eqn:Ho.
  - split; [exact Hem|]. rewrite Ho. discriminate.
  - specialize (Hh e (Hom e eq_refl)). destruct (h e) as [k|].
    + destruct (Hh (after (m w))) as [Hek Hok]. cbn.
      split; [rewrite forallb_app, Hem, Hek; reflexivity | exact Hok].
    + split; [exact Hem|]. rewrite Ho. intros e' H. inversion H; subst. exact Hh.
Qed.

Lemma obeys_when Q (b : bool) (m : M os unit) :
  obeys os P Q m -> obeys os P Q (when os b m).
Proof. intros H. destruct b; [exact H | apply obeys_ret]. Qed.

Lemma obeys_weaken {A} (Q Q' : exn -> bool) (m : M os A) :
  (forall e, Q e = true -> Q' e = true) -> obeys os P Q m -> obeys os P Q' m.
Proof.
  intros HQ Hm w. destruct (Hm w) as [He Ho]. split; [exact He|].
  intros e H. apply HQ, (Ho e H).
Qed.

Lemma obeys_isdir Q p : P (EvIsDir p) = true -> obeys os P Q (os_path_isdir os p).
Proof. intros HP w. split; [cbn; now rewrite HP | discriminate]. Qed.

Lemma obeys_isfile Q p : P (EvIsFile p) = true -> obeys os P Q (os_path_isfile os p).
Proof. intros HP w. split; [cbn; now rewrite HP | discriminate]. Qed.

Lemma obeys_makedirs Q p :
  P (EvMakedirs p) = true -> (forall msg, Q (OSError msg) = true) ->
  obeys os P Q (os_makedirs os p).
Proof.
  intros HP HQ w. unfold os_makedirs.
  destruct (makedirs os w p) as [w' [msg|]]; cbn; rewrite HP.
  - split; [reflexivity|]. intros e H. inversion H; subst. apply HQ.
  - split; [reflexivity | discriminate].
Qed.

Lemma obeys_popen Q command cwd timeout :
  P (EvPopen command cwd timeout) = true ->
  (forall e, is_Exception e = true -> Q e = true) ->
  obeys os P Q (Popen_communicate os command cwd timeout).
Proof.
  intros HP HQ w. unfold Popen_communicate.
  destruct (popen os w command cwd timeout) as [w' [rc out err|msg| |n msg]];
    cbn; rewrite HP; (split; [reflexivity|]); intros e H;
    try discriminate; inversion H; subst; now apply HQ.
Qed.

Lemma obeys_kill Q : P EvKill = true -> obeys os P Q (kill_communicate os).
Proof.
  intros HP w. unfold kill_communicate.
  destruct (kill os w) as [w' r]. cbn. rewrite HP.
  split; [reflexivity | discriminate].
Qed.

End Obeys.

(** ** What each function of the program does *)

Arguments Py.path_join : simpl never.
Arguments INVESTIGATIONS_DIR : simpl never.
Arguments SCRIPTS_DIR : simpl never.
Arguments Py.endswith : simpl never.
Arguments dispatch : simpl never.
Arguments run_script : simpl never.
Arguments has_stage_function : simpl never.


Lemma validate_investigation_exists_run os case w :
  let r := validate_investigation_exists os case w in
  after r = w /\
  outcome r = inl (succeeded (validate_case_name case)
                   && isdir os w (Py.path_join (INVESTIGATIONS_DIR os) case)) /\
  forallb inner_event (emitted r) = true /\
  forallb passive_event (emitted r) = true.
Proof.
  unfold validate_investigation_exists, bind, try_except, lift, os_path_isdir,
    log, emit, raise, ret. cbn.
  destruct (validate_case_name_cases case) as [H|[p H]]; rewrite H; cbn.
  - destruct (isdir os w (Py.path_join (INVESTIGATIONS_DIR os) case)); cbn; auto.
  - auto.
Qed.

Lemma run_script_run os rel case t args w :
  let r := run_script os rel case t args w in
  scripts_tried (emitted r) = [Py.path_join (SCRIPTS_DIR os) rel] /\
  forallb inner_event (emitted r) = true /\
  directories_made (emitted r) = [] /\
  (outcome r = inl true \/ exists p, outcome r = inr (ScriptExecutionError p)).
Proof.
  unfold run_script.
  generalize (Py.path_join (SCRIPTS_DIR os) rel) as path. intros path.
  match goal with
  | |- context [Popen_communicate os ?c _ _] => generalize c as command
  end.
  intros command.
  unfold bind, try_except, os_path_isfile, Popen_communicate, kill_communicate,
    log, emit, when, raise, ret. cbn.
  destruct (isfile os w path); cbn; [|eauto 7].
  destruct (popen os w command (PROJECT_ROOT os) t)
    as [w' [rc out err|msg| |n msg]]; cbn.
  - destruct (nonempty out), (nonempty err), (rc =? 0); cbn; eauto 7.
  - eauto 7.
  - destruct (kill os w') as [w'' [out err]]; cbn.
    destruct (nonempty out), (nonempty err); cbn; eauto 7.
  - eauto 7.
Qed.

Lemma run_script_not_found os rel case t args w :
  isfile os w (Py.path_join (SCRIPTS_DIR os) rel) = false ->
  run_script os rel case t args w =
    MkRun w [EvIsFile (Py.path_join (SCRIPTS_DIR os) rel);
             EvLog ERROR (M_TargetNotFound (Py.path_join (SCRIPTS_DIR os) rel))]
          (inr (ScriptExecutionError
                  (TargetNotFound (Py.path_join (SCRIPTS_DIR os) rel)))).
Proof.
  intros H. unfold run_script, bind, os_path_isfile, log, emit, raise. cbn.
  rewrite H. reflexivity.
Qed.

Lemma try_run_script_run os rel script_args case t flag w :
  let r1 := run_script os rel case t script_args w in
  let r := try_run_script os rel script_args case t flag w in
  after r = after r1 /\
  emitted r = emitted r1 /\
  outcome r = inl (flag && succeeded (outcome r1)).
Proof.
  cbv zeta. unfold try_run_script, try_except, bind, ret.
  destruct (run_script_run os rel case t script_args w) as (_ & _ & _ & [H|[p H]]);
    rewrite H; cbn; rewrite app_nil_r.
  - now rewrite andb_true_r.
  - now rewrite andb_false_r.
Qed.

Lemma for_scripts_run os scripts case t : forall flag w,
  let r := for_scripts os scripts case t flag w in
  scripts_tried (emitted r) =
    map (fun p => Py.path_join (SCRIPTS_DIR os) (fst p)) scripts /\
  forallb inner_event (emitted r) = true /\
  directories_made (emitted r) = [] /\
  outcome r =
    inl (flag && forallb (fun b => b) (invocation_results os scripts case t w)).
Proof.
  induction scripts as [|[rel script_args] rest IH]; intros flag w.
  - cbn. now rewrite andb_true_r.
  - cbv zeta. cbn [for_scripts invocation_results map fst forallb].
    destruct (try_run_script_run os rel script_args case t flag w) as (Ha & He & Ho).
    destruct (run_script_run os rel case t script_args w) as (Hs & Hi & Hd & _).
    unfold bind. rewrite Ho, Ha, He. cbn [after emitted outcome].
    specialize (IH (flag && succeeded (outcome (run_script os rel case t script_args w)))
                  (after (run_script os rel case t script_args w))).
    cbv zeta in IH. destruct IH as (IHs & IHi & IHd & IHo).
    rewrite scripts_tried_app, forallb_app, directories_made_app, Hs, Hi, Hd, IHs, IHi, IHd, IHo.
    repeat split. now rewrite andb_assoc.
Qed.

(** ** The stage functions emit their banner and nothing of the stage loop *)

Lemma obeys_validate_investigation_exists os Q case :
  obeys os inner_event Q (validate_investigation_exists os case).
Proof.
  intros w.
  destruct (validate_investigation_exists_run os case w) as (_ & Ho & Hi & _).
  split; [exact Hi|]. rewrite Ho. discriminate.
Qed.

Lemma obeys_try_run_script os Q rel script_args case t flag :
  obeys os inner_event Q (try_run_script os rel script_args case t flag).
Proof.
  intros w.
  destruct (try_run_script_run os rel script_args case t flag w) as (_ & He & Ho).
  destruct (run_script_run os rel case t script_args w) as (_ & Hi & _).
  split; [now rewrite He|]. rewrite Ho. discriminate.
Qed.

Lemma obeys_for_scripts os Q scripts case t flag :
  obeys os inner_event Q (for_scripts os scripts case t flag).
Proof.
  intros w.
  destruct (for_scripts_run os scripts case t flag w) as (_ & Hi & _ & Ho).
  split; [exact Hi|]. rewrite Ho. discriminate.
Qed.

Lemma obeys_make_subdirs os path subdirs :
  obeys os inner_event is_OSError (make_subdirs os path subdirs).
Proof.
  induction subdirs as [|d rest IH]; cbn [make_subdirs].
  - apply obeys_ret.
  - apply obeys_bind; [|intros _; exact IH].
    apply obeys_makedirs; reflexivity.
Qed.

Ltac obey :=
  repeat first
    [ apply obeys_validate_investigation_exists
    | apply obeys_try_run_script
    | apply obeys_for_scripts
    | apply obeys_ret
    | apply obeys_log; reflexivity
    | apply obeys_raise; reflexivity
    | apply obeys_bind; [|intros ?]
    | match goal with
      | |- obeys _ _ _ (if ?b then _ else _) => destruct b
      end ].

(** A stage function: the banner, then a body that stays inside the stage. *)
Lemma banner_then_body os n case sel (body : M os bool) :
  obeys os inner_event is_OrchestratorError body ->
  forall w,
    let r := bind os (log os INFO (M_StageBanner n case sel)) (fun _ => body) w in
    calls (emitted r) = [banner_stage n] /\
    workflow_result (emitted r) = [] /\
    (forall e, outcome r = inr e -> is_OrchestratorError e = true).
Proof.
  intros Hb w. destruct (Hb w) as [Hi Ho].
  unfold bind, log, emit. cbn.
  rewrite (inner_events_calls _ Hi), (inner_events_workflow_result _ Hi).
  auto.
Qed.

Lemma stage_0_events os case t w :
  let r := stage_0_setup_investigation os case t w in
  calls (emitted r) = ["setup"] /\
  workflow_result (emitted r) = [] /\
  (forall e, outcome r = inr e -> is_OrchestratorError e = true).
Proof.
  unfold stage_0_setup_investigation. apply banner_then_body.
  apply obeys_bind; [|intros _; apply obeys_bind; [|intros _; obey]].
  - apply obeys_try with (Q' := is_OrchestratorError).
    + apply obeys_bind; [|intros _; apply obeys_ret].
      apply obeys_lift. intros e He.
      destruct (validate_case_name_cases case) as [H|[p H]]; rewrite H in He;
        inversion He; reflexivity.
    + intros e He. destruct e; try discriminate He; try reflexivity. obey.
  - apply obeys_try with (Q' := is_OSError).
    + apply obeys_bind; [obey|intros _].
      apply obeys_bind; [apply obeys_makedirs; reflexivity|intros _].
      apply obeys_bind; [obey|intros _].
      apply obeys_bind; [apply obeys_make_subdirs|intros _; obey].
    + intros e He. rewrite He. obey.
Qed.

Lemma stage_1_events os case sel t w :
  let r := stage_1_acquire_source_documents os case sel t w in
  calls (emitted r) = ["acquire"] /\
  workflow_result (emitted r) = [] /\
  (forall e, outcome r = inr e -> is_OrchestratorError e = true).
Proof.
  unfold stage_1_acquire_source_documents. apply banner_then_body. obey.
Qed.

Lemma stage_2_events os case sel t w :
  let r := stage_2_datashare_processing os case sel t w in
  calls (emitted r) = ["datashare"] /\
  workflow_result (emitted r) = [] /\
  (forall e, outcome r = inr e -> is_OrchestratorError e = true).
Proof.
  unfold stage_2_datashare_processing. apply banner_then_body. obey.
Qed.

Lemma stage_3_events os case sel t w :
  let r := stage_3_parse_and_structure_data os case sel t w in
  calls (emitted r) = ["parse"] /\
  workflow_result (emitted r) = [] /\
  (forall e, outcome r = inr e -> is_OrchestratorError e = true).
Proof.
  unfold stage_3_parse_and_structure_data. apply banner_then_body. obey.
Qed.

Lemma stage_4_events os case sel t w :
  let r := stage_4_analysis_and_reporting os case sel t w in
  calls (emitted r) = ["analyze"] /\
  workflow_result (emitted r) = [] /\
  (forall e, outcome r = inr e -> is_OrchestratorError e = true).
Proof.
  unfold stage_4_analysis_and_reporting. apply banner_then_body. obey.
Qed.

Lemma stage_5_events os case t w :
  let r := stage_5_package_for_review os case t w in
  calls (emitted r) = ["package"] /\
  workflow_result (emitted r) = [] /\
  (forall e, outcome r = inr e -> is_OrchestratorError e = true).
Proof.
  unfold stage_5_package_for_review. apply banner_then_body. obey.
Qed.

Lemma has_stage_function_unknown (s : string) :
  (s =? "setup")%string = false -> (s =? "acquire")%string = false ->
  (s =? "datashare")%string = false -> (s =? "parse")%string = false ->
  (s =? "analyze")%string = false -> (s =? "package")%string = false ->
  has_stage_function s = false.
Proof.
  intros H0 H1 H2 H3 H4 H5. unfold has_stage_function, Py.list_in. cbn.
  now rewrite H0, H1, H2, H3, H4, H5.
Qed.

Lemma dispatch_run os args s w :
  let r := dispatch os args s w in
  calls (emitted r) = (if has_stage_function s then [s] else []) /\
  workflow_result (emitted r) = [] /\
  (forall e, outcome r = inr e -> is_OrchestratorError e = true).
Proof.
  unfold dispatch.
  destruct (String.eqb_spec s "setup") as [->|N0]; [apply stage_0_events|].
  destruct (String.eqb_spec s "acquire") as [->|N1]; [apply stage_1_events|].
  destruct (String.eqb_spec s "datashare") as [->|N2]; [apply stage_2_events|].
  destruct (String.eqb_spec s "parse") as [->|N3]; [apply stage_3_events|].
  destruct (String.eqb_spec s "analyze") as [->|N4]; [apply stage_4_events|].
  destruct (String.eqb_spec s "package") as [->|N5]; [apply stage_5_events|].
  rewrite has_stage_function_unknown by (now apply String.eqb_neq).
  unfold bind, log, emit, raise. cbn. repeat split.
  intros e H. inversion H. reflexivity.
Qed.

(** ** The stage loop *)

Lemma run_stage_run os args flag s w :
  let r := run_stage os args flag s w in
  exists o,
    workflow_result (emitted r) = [(s, o)] /\
    is_skipped o = negb flag && negb (s =? "setup")%string /\
    outcome r = inl (flag && negb (is_failed o)) /\
    calls (emitted r) =
      (if is_skipped o then [] else if has_stage_function s then [s] else []) /\
    (is_skipped o = true ->
     after r = w /\
     emitted r = [EvLog WARNING (M_SkippingStage s (case_name args))]).
Proof.
  cbv zeta. unfold run_stage, Py.list_in. cbn [existsb]. rewrite orb_false_r.
  destruct (negb flag && negb (s =? "setup")%string) eqn:Hskip.
  - exists Skipped. unfold try_except, bind, log, emit, ret. cbn.
    apply andb_prop in Hskip. destruct Hskip as [Hf _].
    destruct flag; [discriminate Hf|]. repeat split.
  - destruct (dispatch_run os args s w) as (Hc & Hw & He).
    unfold try_except, bind, log, emit, ret, raise. cbn.
    destruct (outcome (dispatch os args s w)) as [[|]|e] eqn:Ho; cbn.
    + exists Succeeded. rewrite workflow_result_app, calls_app, Hw, Hc. cbn.
      rewrite andb_true_r, app_nil_r. repeat split; discriminate.
    + exists Failed.
      rewrite !workflow_result_app, !calls_app, Hw, Hc. cbn.
      rewrite andb_false_r, !app_nil_r. repeat split; discriminate.
    + rewrite (He e eq_refl). cbn. exists Failed.
      rewrite !workflow_result_app, !calls_app, Hw, Hc. cbn.
      rewrite andb_false_r, !app_nil_r. repeat split; discriminate.
Qed.

Lemma for_stages_run os args stages : forall flag w,
  let r := for_stages os args stages flag w in
  let wr := workflow_result (emitted r) in
  map fst wr = stages /\
  follows_policy flag wr = true /\
  outcome r = inl (flag && negb (any_failed wr)) /\
  calls (emitted r) = filter has_stage_function (attempted wr).
Proof.
  induction stages as [|s rest IH]; intros flag w; cbv zeta.
  - cbn. rewrite andb_true_r. auto.
  - cbn [for_stages]. unfold bind.
    destruct (run_stage_run os args flag s w) as (o & Hw & Hs & Ho & Hc & _).
    rewrite Ho. cbn [after emitted outcome].
    specialize (IH (flag && negb (is_failed o)) (after (run_stage os args flag s w))).
    cbv zeta in IH. destruct IH as (IHm & IHp & IHo & IHc).
    rewrite workflow_result_app, calls_app, Hw, Hc, IHo, IHc.
    set (wr2 := workflow_result _) in *.
    change ([(s, o)] ++ wr2) with ((s, o) :: wr2).
    cbn [map fst follows_policy any_failed existsb snd].
    rewrite IHm, IHp, <- Hs, eqb_reflx.
    split; [reflexivity|]. split; [reflexivity|]. split.
    + f_equal. fold (any_failed wr2).
      destruct flag, (is_failed o); reflexivity.
    + unfold attempted. cbn [filter snd].
      destruct (is_skipped o); cbn [negb map fst filter app]; [reflexivity|].
      destruct (has_stage_function s); reflexivity.
Qed.

Lemma follows_policy_split (pre post : list (string * stage_outcome)) s o :
  forall ok,
  follows_policy ok (pre ++ (s, o) :: post) = true ->
  is_skipped o = negb (ok && negb (any_failed pre)) && negb (s =? "setup")%string.
Proof.
  induction pre as [|[s' o'] pre IH]; intros ok H.
  - cbn in H |- *. apply andb_prop in H. destruct H as [H _].
    apply eqb_prop in H. now rewrite andb_true_r.
  - cbn in H. apply andb_prop in H. destruct H as [_ H].
    rewrite (IH _ H). cbn.
    destruct ok, (is_failed o'); reflexivity.
Qed.
(** ** Running a sequence step by step *)

Lemma run_eta os {A} (r : Run os A) : r = MkRun (after r) (emitted r) (outcome r).
Proof. destruct r; reflexivity. Qed.

Lemma bind_then os {A B} (m : M os A) (f : A -> M os B) w w1 t1 a w2 t2 r :
  m w = MkRun w1 t1 (inl a) ->
  f a w1 = MkRun w2 t2 r ->
  bind os m f w = MkRun w2 (t1 ++ t2) r.
Proof. intros Hm Hf. unfold bind. rewrite Hm. cbn. rewrite Hf. reflexivity. Qed.

Lemma bind_raised os {A B} (m : M os A) (f : A -> M os B) w w1 t1 e :
  m w = MkRun w1 t1 (inr e) ->
  bind os m f w = MkRun w1 t1 (inr e).
Proof. intros Hm. unfold bind. rewrite Hm. reflexivity. Qed.

Lemma try_passed os {A} (m : M os A) h w w1 t1 a :
  m w = MkRun w1 t1 (inl a) ->
  try_except os m h w = MkRun w1 t1 (inl a).
Proof. intros Hm. unfold try_except. rewrite Hm. reflexivity. Qed.

Lemma try_caught os {A} (m : M os A) h w w1 t1 e k w2 t2 r :
  m w = MkRun w1 t1 (inr e) ->
  h e = Some k ->
  k w1 = MkRun w2 t2 r ->
  try_except os m h w = MkRun w2 (t1 ++ t2) r.
Proof.
  intros Hm Hh Hk. unfold try_except. rewrite Hm. cbn. rewrite Hh, Hk. reflexivity.
Qed.

(** ** The whole run *)

Lemma main_invalid os args w p :
  validate_case_name (case_name args) = inr (InvalidCaseNameError p) ->
  main os args w =
    MkRun w
      [EvLog INFO M_Rule; EvLog INFO (M_Initializing (case_name args));
       EvLog INFO (M_RequestedStages (stage args));
       EvLog INFO (M_GlobalTimeout (script_timeout args)); EvLog INFO M_Rule;
       EvLog ERROR (M_HaltedInvalidCaseName p)]
      (inr (SystemExit 1)).
Proof.
  intros H. unfold main. etransitivity.
  - do 5 (eapply bind_then; [reflexivity|]).
    eapply bind_raised. eapply try_caught.
    + eapply bind_raised. unfold lift. rewrite H. reflexivity.
    + reflexivity.
    + eapply bind_then; reflexivity.
  - reflexivity.
Qed.

Lemma when_log_run os (b : bool) l m w :
  when os b (log os l m) w = MkRun w (if b then [EvLog l m] else []) (inl tt).
Proof. destruct b; reflexivity. Qed.

Lemma main_valid os args w :
  validate_case_name (case_name args) = inl true ->
  let r := main os args w in
  let l := for_stages os args (stages_to_run_ordered (stage args)) true w in
  workflow_result (emitted r) = workflow_result (emitted l) /\
  calls (emitted r) = calls (emitted l) /\
  after r = after l /\
  exit_code r = (if any_failed (workflow_result (emitted l)) then 1 else 0).
Proof.
  intros H. cbv zeta.
  destruct (for_stages_run os args (stages_to_run_ordered (stage args)) true w)
    as (_ & _ & Ho & _). cbv zeta in Ho.
  set (l := for_stages os args (stages_to_run_ordered (stage args)) true w) in *.
  assert (El : for_stages os args (stages_to_run_ordered (stage args)) true w
               = MkRun (after l) (emitted l) (outcome l)) by apply run_eta.
  rewrite Ho in El. cbn [andb] in El.
  assert (Ev : try_except os
                 (bind os (lift os (validate_case_name (case_name args)))
                    (fun _ => ret os tt))
                 (fun e => match e with
                           | InvalidCaseNameError p =>
                               Some (bind os (log os ERROR (M_HaltedInvalidCaseName p))
                                       (fun _ => sys_exit os 1))
                           | _ => None
                           end) w = MkRun w [] (inl tt)).
  { eapply try_passed. unfold bind, lift. rewrite H. reflexivity. }
  assert (E : exists T R,
             main os args w = MkRun (after l) T R /\
             workflow_result T = workflow_result (emitted l) /\
             calls T = calls (emitted l) /\
             exit_code (MkRun (after l) T R)
             = (if any_failed (workflow_result (emitted l)) then 1 else 0)).
  { unfold main.
    destruct (any_failed (workflow_result (emitted l))); cbn [negb] in El.
    - eexists. eexists. split.
      + do 5 (eapply bind_then; [reflexivity|]).
        eapply bind_then; [exact Ev|].
        eapply bind_then; [apply when_log_run|].
        eapply bind_then; [exact El|].
        eapply bind_then; [reflexivity|].
        eapply bind_raised.
        eapply bind_then; [reflexivity|].
        eapply bind_then; reflexivity.
      + destruct (Py.list_in "all" (stage args)); cbn;
          rewrite workflow_result_app, calls_app; cbn; rewrite !app_nil_r; auto.
    - eexists. eexists. split.
      + do 5 (eapply bind_then; [reflexivity|]).
        eapply bind_then; [exact Ev|].
        eapply bind_then; [apply when_log_run|].
        eapply bind_then; [exact El|].
        eapply bind_then; [reflexivity|].
        eapply bind_then; reflexivity.
      + destruct (Py.list_in "all" (stage args)); cbn;
          rewrite workflow_result_app, calls_app; cbn; rewrite !app_nil_r; auto. }
  destruct E as (T & R & E & Hw & Hc & Hx). rewrite E. cbn [emitted after].
  auto.
Qed.
Lemma main_run os args w :
  let r := main os args w in
  let wr := workflow_result (emitted r) in
  follows_policy true wr = true /\
  calls (emitted r) = filter has_stage_function (attempted wr) /\
  (validate_case_name (case_name args) = inl true ->
   map fst wr = stages_to_run_ordered (stage args) /\
   exit_code r = (if any_failed wr then 1 else 0)) /\
  (validate_case_name (case_name args) <> inl true ->
   exit_code r = 1 /\ forallb log_only (emitted r) = true /\ after r = w).
Proof.
  cbv zeta.
  destruct (validate_case_name_cases (case_name args)) as [H|[p H]].
  - destruct (main_valid os args w H) as (Hw & Hc & _ & Hx).
    destruct (for_stages_run os args (stages_to_run_ordered (stage args)) true w)
      as (Hm & Hp & _ & Hcl).
    rewrite Hw, Hc, Hx.
    split; [exact Hp|]. split; [exact Hcl|].
    split; [intros _; split; [exact Hm | reflexivity] | intros N; contradiction].
  - rewrite (main_invalid os args w p H). cbn.
    split; [reflexivity|]. split; [reflexivity|].
    split; [rewrite H; discriminate | intros _; repeat split].
Qed.

Lemma policy_two_stages (s1 s2 : string) (wr : list (string * stage_outcome)) :
  follows_policy true wr = true ->
  map fst wr = [s1; s2] ->
  s1 <> s2 -> s2 <> "setup" ->
  In (s1, Failed) wr ->
  wr = [(s1, Failed); (s2, Skipped)].
Proof.
  intros Hp Hm N1 N2 Hin.
  destruct wr as [|[a o1] [|[b o2] [|x rest]]]; try discriminate Hm.
  cbn in Hm. injection Hm as -> ->.
  destruct Hin as [Hin|[Hin|[]]].
  - injection Hin as ->. cbn in Hp.
    apply String.eqb_neq in N2. rewrite N2 in Hp. cbn in Hp.
    destruct o2; cbn in Hp; try discriminate Hp. reflexivity.
  - injection Hin as E _. symmetry in E. contradiction.
Qed.

(** C2, as the spec states it, fails: when no directory can be made,
    requesting setup then acquire makes setup fail, and acquire is then
    skipped: its stage function is not entered. *)
Lemma failed_setup_acquire_not_attempted :
  workflow_result
    (emitted (main Toy.read_only (Toy.request "Case1" ["setup"; "acquire"]) []))
  = [("setup", Failed); ("acquire", Skipped)] /\
  ~ In "acquire"
      (calls (emitted (main Toy.read_only (Toy.request "Case1" ["setup"; "acquire"]) []))).
Proof.
  split; [vm_compute; reflexivity|].
  vm_compute. intros [H|[]]. discriminate H.
Qed.

(** C2, amended: when the requested stages are setup then acquire and setup
    fails, acquire is skipped: it is recorded as skipped, only the setup
    stage function is entered, and the exit code is 1. *)
Theorem failed_setup_skips_acquire os args w :
  stage args = ["setup"; "acquire"] ->
  In ("setup", Failed) (workflow_result (emitted (main os args w))) ->
  workflow_result (emitted (main os args w))
    = [("setup", Failed); ("acquire", Skipped)] /\
  calls (emitted (main os args w)) = ["setup"] /\
  exit_code (main os args w) = 1.
Proof.
  intros Hs Hin.
  destruct (main_run os args w) as (Hp & Hc & Hv & Hi). cbv zeta in *.
  destruct (validate_case_name_cases (case_name args)) as [H|[p H]].
  - destruct (Hv H) as [Hm Hx]. rewrite Hs in Hm.
    assert (E : workflow_result (emitted (main os args w))
                = [("setup", Failed); ("acquire", Skipped)]).
    { apply policy_two_stages; try assumption; discriminate. }
    rewrite Hc, Hx, E. repeat split.
  - rewrite (main_invalid os args w p H) in Hin. destruct Hin.
Qed.

Lemma failed_setup_skips_acquire_witness :
  workflow_result
    (emitted (main Toy.read_only (Toy.request "Case1" ["setup"; "acquire"]) []))
    = [("setup", Failed); ("acquire", Skipped)] /\
  calls (emitted (main Toy.read_only (Toy.request "Case1" ["setup"; "acquire"]) []))
    = ["setup"] /\
  exit_code (main Toy.read_only (Toy.request "Case1" ["setup"; "acquire"]) []) = 1.
Proof.
  apply (failed_setup_skips_acquire Toy.read_only
           (Toy.request "Case1" ["setup"; "acquire"]) []).
  - reflexivity.
  - vm_compute. left. reflexivity.
Defined.

(** C3: in every run, a stage that comes after a failed one is recorded as
    skipped when it is not setup and is attempted when it is setup; the
    stage functions entered are exactly those of the entries not skipped;
    and for acquire then parse with acquire failing, parse is skipped and
    the exit code is 1. *)
Theorem failure_skips_later_stages os args w :
  let r := main os args w in
  let wr := workflow_result (emitted r) in
  (validate_case_name (case_name args) = inl true ->
   map fst wr = stages_to_run_ordered (stage args)) /\
  (forall pre s o post,
     wr = pre ++ (s, o) :: post -> any_failed pre = true ->
     (s <> "setup" -> o = Skipped) /\ (s = "setup" -> o <> Skipped)) /\
  calls (emitted r) = filter has_stage_function (attempted wr) /\
  (stage args = ["acquire"; "parse"] -> In ("acquire", Failed) wr ->
   wr = [("acquire", Failed); ("parse", Skipped)] /\
   calls (emitted r) = ["acquire"] /\
   exit_code r = 1).
Proof.
  cbv zeta.
  destruct (main_run os args w) as (Hp & Hc & Hv & Hi). cbv zeta in *.
  split; [intros H; apply (Hv H)|].
  split; [|split; [exact Hc|]].
  - intros pre s o post E Hf. rewrite E in Hp.
    apply follows_policy_split in Hp. rewrite Hf in Hp. cbn in Hp.
    split.
    + intros N. apply String.eqb_neq in N. rewrite N in Hp.
      destruct o; try discriminate Hp. reflexivity.
    + intros ->. cbn in Hp. intros ->. discriminate Hp.
  - intros Hs Hin.
    destruct (validate_case_name_cases (case_name args)) as [H|[p H]].
    + destruct (Hv H) as [Hm Hx]. rewrite Hs in Hm.
      assert (E : workflow_result (emitted (main os args w))
                  = [("acquire", Failed); ("parse", Skipped)]).
      { apply policy_two_stages; try assumption; discriminate. }
      rewrite Hc, Hx, E. repeat split.
    + rewrite (main_invalid os args w p H) in Hin. destruct Hin.
Qed.

Lemma failure_skips_later_stages_witness :
  workflow_result
    (emitted (main Toy.no_scripts (Toy.request "Case1" ["acquire"; "parse"])
                ["/opt/irs990/investigations/Case1"]))
    = [("acquire", Failed); ("parse", Skipped)] /\
  calls (emitted (main Toy.no_scripts (Toy.request "Case1" ["acquire"; "parse"])
                    ["/opt/irs990/investigations/Case1"]))
    = ["acquire"] /\
  exit_code (main Toy.no_scripts (Toy.request "Case1" ["acquire"; "parse"])
               ["/opt/irs990/investigations/Case1"]) = 1.
Proof.
  apply (failure_skips_later_stages Toy.no_scripts
           (Toy.request "Case1" ["acquire"; "parse"])
           ["/opt/irs990/investigations/Case1"]).
  - reflexivity.
  - vm_compute. left. reflexivity.
Defined.

(** C10: when the case name fails validation, the run exits with code 1
    having done nothing but log: no stage function is entered, no child
    process is launched, no directory is made, and the world is as it was. *)
Theorem invalid_case_name_exits_first os args w :
  validate_case_name (case_name args) <> inl true ->
  let r := main os args w in
  exit_code r = 1 /\
  outcome r = inr (SystemExit 1) /\
  calls (emitted r) = [] /\
  launches (emitted r) = [] /\
  scripts_tried (emitted r) = [] /\
  directories_made (emitted r) = [] /\
  forallb log_only (emitted r) = true /\
  after r = w.
Proof.
  intros N. cbv zeta.
  destruct (validate_case_name_cases (case_name args)) as [H|[p H]];
    [contradiction|].
  rewrite (main_invalid os args w p H). cbn. repeat split.
Qed.

Lemma invalid_case_name_exits_first_witness :
  exit_code (main Toy.healthy (Toy.request "../other" ["acquire"; "parse"]) []) = 1 /\
  calls (emitted (main Toy.healthy (Toy.request "../other" ["acquire"; "parse"]) [])) = [] /\
  after (main Toy.healthy (Toy.request "../other" ["acquire"; "parse"]) []) = [].
Proof.
  assert (N : validate_case_name (case_name (Toy.request "../other" ["acquire"; "parse"]))
              <> inl true) by (vm_compute; discriminate).
  destruct (invalid_case_name_exits_first Toy.healthy
              (Toy.request "../other" ["acquire"; "parse"]) [] N)
    as (Hx & _ & Hc & _ & _ & _ & _ & Ha).
  exact (conj Hx (conj Hc Ha)).
Defined.
(** ** Order and repetition of the stages *)

Lemma has_stage_function_choice (s : string) :
  In s stage_choices -> s <> "all" -> has_stage_function s = true.
Proof.
  intros Hin N. cbn in Hin.
  destruct Hin as [<-|[<-|[<-|[<-|[<-|[<-|[<-|[]]]]]]]]; try reflexivity.
  contradiction.
Qed.

Lemma list_in_false (x : string) (l : list string) :
  Py.list_in x l = false -> ~ In x l.
Proof.
  unfold Py.list_in. induction l as [|a l IH]; cbn; [tauto|].
  intros H. apply orb_false_elim in H. destruct H as [Ha Hl].
  intros [E|Hin]; [|now apply IH].
  subst. now rewrite String.eqb_refl in Ha.
Qed.

Lemma choices_have_stage_functions (stages : list string) :
  Forall (fun s => In s stage_choices) stages ->
  ~ In "all" stages ->
  forallb has_stage_function stages = true.
Proof.
  induction 1 as [|s l Hs Hl IH]; intros N; [reflexivity|].
  cbn [forallb]. rewrite has_stage_function_choice.
  - apply IH. intros Hin. apply N. now right.
  - exact Hs.
  - intros E. apply N. now left.
Qed.

Lemma ordered_have_stage_functions (stages : list string) :
  Forall (fun s => In s stage_choices) stages ->
  forallb has_stage_function (stages_to_run_ordered stages) = true.
Proof.
  intros Hc. unfold stages_to_run_ordered.
  destruct (Py.list_in "all" stages) eqn:Hall; [reflexivity|].
  apply choices_have_stage_functions; [exact Hc|].
  now apply list_in_false.
Qed.

Lemma attempted_have_stage_functions (wr : list (string * stage_outcome)) :
  forallb has_stage_function (map fst wr) = true ->
  filter has_stage_function (attempted wr) = attempted wr.
Proof.
  unfold attempted. induction wr as [|[s o] wr IH]; [reflexivity|].
  cbn [map fst forallb filter snd]. intros H.
  apply andb_prop in H. destruct H as [Hs Hr].
  destruct (is_skipped o); cbn [negb map fst filter]; [now apply IH|].
  rewrite Hs. f_equal. now apply IH.
Qed.

(** A run that follows the policy and has no failure skips nothing. *)
Lemma no_failure_all_attempted (wr : list (string * stage_outcome)) :
  follows_policy true wr = true -> any_failed wr = false ->
  attempted wr = map fst wr.
Proof.
  induction wr as [|[s o] wr IH]; [reflexivity|].
  cbn. intros Hp Hf.
  apply orb_false_elim in Hf. destruct Hf as [Ho Hf].
  apply andb_prop in Hp. destruct Hp as [Hs Hp].
  rewrite Ho in Hp. cbn in Hp.
  apply eqb_prop in Hs. unfold attempted. cbn. rewrite Hs. cbn.
  f_equal. now apply IH.
Qed.

Lemma count_calls_and_skips (s : string) (wr : list (string * stage_outcome)) :
  has_stage_function s = true ->
  (count_occ string_dec (filter has_stage_function (attempted wr)) s
   + count_occ string_dec (skipped wr) s
   = count_occ string_dec (map fst wr) s)%nat.
Proof.
  intros Hs. induction wr as [|[s' o] wr IH]; [reflexivity|].
  unfold attempted, skipped in *. cbn [filter map fst snd].
  destruct (is_skipped o); cbn [negb map fst filter count_occ].
  - destruct (string_dec s' s); lia.
  - destruct (string_dec s' s) as [->|N].
    + rewrite Hs. cbn [count_occ]. destruct (string_dec s s); [lia | contradiction].
    + destruct (has_stage_function s'); cbn [count_occ]; [|exact IH].
      destruct (string_dec s' s); [contradiction | exact IH].
Qed.

(** C4: the stage loop works through the canonical six stages when [all]
    is among the requested stages, and through the requested stages in the
    order given otherwise; the stage functions entered are those of the
    entries not skipped, in that order, and in a run that ends with exit
    code 0 they are the whole sequence. *)
Theorem stages_run_in_requested_order os args w :
  validate_case_name (case_name args) = inl true ->
  let r := main os args w in
  let wr := workflow_result (emitted r) in
  (Py.list_in "all" (stage args) = true ->
   map fst wr = ["setup"; "acquire"; "datashare"; "parse"; "analyze"; "package"]) /\
  (Py.list_in "all" (stage args) = false -> map fst wr = stage args) /\
  (Forall (fun s => In s stage_choices) (stage args) ->
   calls (emitted r) = attempted wr /\
   (exit_code r = 0 -> calls (emitted r) = stages_to_run_ordered (stage args))).
Proof.
  intros H. cbv zeta.
  destruct (main_run os args w) as (Hp & Hc & Hv & _). cbv zeta in *.
  destruct (Hv H) as [Hm Hx].
  split; [|split].
  - intros Hall. rewrite Hm. unfold stages_to_run_ordered. now rewrite Hall.
  - intros Hall. rewrite Hm. unfold stages_to_run_ordered. now rewrite Hall.
  - intros Hch.
    assert (Ha : calls (emitted (main os args w))
                 = attempted (workflow_result (emitted (main os args w)))).
    { rewrite Hc. apply attempted_have_stage_functions.
      rewrite Hm. now apply ordered_have_stage_functions. }
    split; [exact Ha|].
    intros H0. rewrite Hx in H0.
    destruct (any_failed (workflow_result (emitted (main os args w)))) eqn:Hf;
      [discriminate H0|].
    now rewrite Ha, (no_failure_all_attempted _ Hp Hf).
Qed.

Lemma stages_run_in_requested_order_witness :
  calls (emitted (main Toy.healthy (Toy.request "Case1" ["parse"; "acquire"])
                    ["/opt/irs990/investigations/Case1"]))
  = ["parse"; "acquire"] /\
  map fst (workflow_result
             (emitted (main Toy.healthy (Toy.request "Case1" ["analyze"; "all"]) [])))
  = ["setup"; "acquire"; "datashare"; "parse"; "analyze"; "package"].
Proof.
  split.
  - refine (proj2 (proj2 (proj2 (stages_run_in_requested_order Toy.healthy
             (Toy.request "Case1" ["parse"; "acquire"])
             ["/opt/irs990/investigations/Case1"] _)) _) _).
    + reflexivity.
    + repeat constructor; cbn; tauto.
    + vm_compute. reflexivity.
  - refine (proj1 (stages_run_in_requested_order Toy.healthy
             (Toy.request "Case1" ["analyze"; "all"]) [] _) _); reflexivity.
Defined.

(** C9: without [all], the requested list is worked through as given,
    duplicates included: a stage named n times has n entries in the result,
    and its function is entered once for each entry that is not skipped. *)
Theorem duplicate_stages_run_verbatim os args w (s : string) :
  validate_case_name (case_name args) = inl true ->
  Py.list_in "all" (stage args) = false ->
  has_stage_function s = true ->
  let r := main os args w in
  let wr := workflow_result (emitted r) in
  map fst wr = stage args /\
  calls (emitted r) = filter has_stage_function (attempted wr) /\
  (count_occ string_dec (calls (emitted r)) s
   + count_occ string_dec (skipped wr) s
   = count_occ string_dec (stage args) s)%nat.
Proof.
  intros H Hall Hs. cbv zeta.
  destruct (main_run os args w) as (Hp & Hc & Hv & _). cbv zeta in *.
  destruct (Hv H) as [Hm _].
  unfold stages_to_run_ordered in Hm. rewrite Hall in Hm.
  split; [exact Hm|]. split; [exact Hc|].
  rewrite Hc, <- Hm. now apply count_calls_and_skips.
Qed.

Lemma duplicate_stages_run_verbatim_witness :
  calls (emitted (main Toy.healthy
                    (Toy.request "Case1" ["setup"; "acquire"; "setup"; "acquire"]) []))
  = ["setup"; "acquire"; "setup"; "acquire"] /\
  (count_occ string_dec
     (calls (emitted (main Toy.healthy
                        (Toy.request "Case1" ["setup"; "acquire"; "setup"; "acquire"]) [])))
     "acquire"
   + count_occ string_dec
       (skipped (workflow_result
                   (emitted (main Toy.healthy
                               (Toy.request "Case1" ["setup"; "acquire"; "setup"; "acquire"]) []))))
       "acquire"
   = 2)%nat.
Proof.
  split; [vm_compute; reflexivity|].
  refine (proj2 (proj2 (duplicate_stages_run_verbatim Toy.healthy
            (Toy.request "Case1" ["setup"; "acquire"; "setup"; "acquire"]) []
            "acquire" _ _ _))); reflexivity.
Defined.
(** ** The stages, case by case *)

Lemma validate_investigation_exists_eq os case w :
  exists tr,
    validate_investigation_exists os case w
    = MkRun w tr (inl (succeeded (validate_case_name case)
                       && isdir os w (Py.path_join (INVESTIGATIONS_DIR os) case))) /\
    forallb inner_event tr = true /\ forallb passive_event tr = true.
Proof.
  destruct (validate_investigation_exists_run os case w) as (Ha & Ho & Hi & Hp).
  exists (emitted (validate_investigation_exists os case w)).
  split; [|split; assumption].
  rewrite (run_eta os (validate_investigation_exists os case w)) at 1.
  now rewrite Ha, Ho.
Qed.

Lemma try_run_script_eq os rel script_args case t flag w :
  try_run_script os rel script_args case t flag w
  = MkRun (after (run_script os rel case t script_args w))
          (emitted (run_script os rel case t script_args w))
          (inl (flag && succeeded (outcome (run_script os rel case t script_args w)))).
Proof.
  destruct (try_run_script_run os rel script_args case t flag w) as (Ha & He & Ho).
  rewrite (run_eta os (try_run_script os rel script_args case t flag w)).
  now rewrite Ha, He, Ho.
Qed.

(** A stage whose investigation directory is missing: the banner, the
    failed check, the error. *)
Lemma stage_without_investigation os n case sel name (rest : M os bool) w :
  isdir os w (Py.path_join (INVESTIGATIONS_DIR os) case) = false ->
  let r :=
    bind os (log os INFO (M_StageBanner n case sel))
      (fun _ =>
         bind os (validate_investigation_exists os case)
           (fun ok =>
              if negb ok
              then raise os (StageError (InvestigationMissing name case))
              else rest)) w in
  fails_without_child name case w r.
Proof.
  intros Hd. cbv zeta.
  destruct (validate_investigation_exists_eq os case w) as (tr & Ev & _ & Hp).
  rewrite Hd, andb_false_r in Ev.
  erewrite bind_then;
    [| reflexivity | eapply bind_then; [exact Ev | reflexivity] ].
  unfold fails_without_child. cbn [outcome emitted after app].
  rewrite app_nil_r. cbn.
  rewrite (passive_events_launches _ Hp), (passive_events_scripts_tried _ Hp),
    (passive_events_directories_made _ Hp).
  repeat split.
Qed.

Lemma dispatch_without_investigation os args s w :
  In s ["acquire"; "datashare"; "parse"; "analyze"; "package"] ->
  isdir os w (Py.path_join (INVESTIGATIONS_DIR os) (case_name args)) = false ->
  fails_without_child s (case_name args) w (dispatch os args s w).
Proof.
  intros Hin Hd.
  destruct Hin as [<-|[<-|[<-|[<-|[<-|[]]]]]];
    now apply stage_without_investigation.
Qed.

(** In the stage loop, such a stage is recorded as failed. *)
Lemma run_stage_without_investigation os args s w :
  In s ["acquire"; "datashare"; "parse"; "analyze"; "package"] ->
  isdir os w (Py.path_join (INVESTIGATIONS_DIR os) (case_name args)) = false ->
  let r := run_stage os args true s w in
  workflow_result (emitted r) = [(s, Failed)] /\
  launches (emitted r) = [] /\
  outcome r = inl false /\
  after r = w.
Proof.
  intros Hin Hd. cbv zeta.
  destruct (dispatch_without_investigation os args s w Hin Hd)
    as (Ho & _ & Hl & _ & Ha).
  destruct (dispatch_run os args s w) as (_ & Hw & _).
  assert (E : dispatch os args s w
              = MkRun w (emitted (dispatch os args s w))
                  (inr (StageError (InvestigationMissing s (case_name args))))).
  { rewrite (run_eta os (dispatch os args s w)) at 1. now rewrite Ha, Ho. }
  unfold run_stage. cbn [negb andb].
  erewrite try_caught;
    [| eapply bind_then; [reflexivity | eapply bind_raised; exact E]
     | reflexivity
     | eapply bind_then; reflexivity ].
  cbn [emitted outcome after].
  rewrite !workflow_result_app, !launches_app, Hw, Hl. cbn.
  repeat split.
Qed.

(** C7: when the investigation directory of the case does not exist, each
    of the five stages after setup raises its stage error at once: no script
    is looked for, no child process is launched, nothing is created and the
    world is unchanged; the stage loop records the stage as failed. *)
Theorem missing_investigation_fails_stage os args w :
  isdir os w (Py.path_join (INVESTIGATIONS_DIR os) (case_name args)) = false ->
  fails_without_child "acquire" (case_name args) w
    (stage_1_acquire_source_documents os (case_name args) (acquire_type args)
       (script_timeout args) w) /\
  fails_without_child "datashare" (case_name args) w
    (stage_2_datashare_processing os (case_name args) (datashare_action args)
       (script_timeout args) w) /\
  fails_without_child "parse" (case_name args) w
    (stage_3_parse_and_structure_data os (case_name args) (parse_type args)
       (script_timeout args) w) /\
  fails_without_child "analyze" (case_name args) w
    (stage_4_analysis_and_reporting os (case_name args) (report_type args)
       (script_timeout args) w) /\
  fails_without_child "package" (case_name args) w
    (stage_5_package_for_review os (case_name args) (script_timeout args) w) /\
  (forall s,
     In s ["acquire"; "datashare"; "parse"; "analyze"; "package"] ->
     workflow_result (emitted (run_stage os args true s w)) = [(s, Failed)] /\
     launches (emitted (run_stage os args true s w)) = [] /\
     after (run_stage os args true s w) = w).
Proof.
  intros Hd.
  split; [now apply stage_without_investigation|].
  split; [now apply stage_without_investigation|].
  split; [now apply stage_without_investigation|].
  split; [now apply stage_without_investigation|].
  split; [now apply stage_without_investigation|].
  intros s Hin.
  destruct (run_stage_without_investigation os args s w Hin Hd)
    as (Hw & Hl & _ & Ha).
  auto.
Qed.

Lemma missing_investigation_fails_stage_witness :
  @fails_without_child Toy.healthy "parse" "Case1" []
    (stage_3_parse_and_structure_data Toy.healthy "Case1" None 7200 []) /\
  workflow_result
    (emitted (run_stage Toy.healthy (Toy.request "Case1" ["parse"]) true "parse" []))
  = [("parse", Failed)].
Proof.
  split.
  - exact (proj1 (proj2 (proj2
             (missing_investigation_fails_stage Toy.healthy
                (Toy.request "Case1" ["parse"]) [] eq_refl)))).
  - refine (proj1 (proj2 (proj2 (proj2 (proj2 (proj2
             (missing_investigation_fails_stage Toy.healthy
                (Toy.request "Case1" ["parse"]) [] eq_refl))))) "parse" _)).
    cbn. tauto.
Defined.

(** C8: when the script path is not an existing file, [run_script] raises
    the script-execution error for a target not found, having only tested
    the path and logged: no process is launched. *)
Theorem missing_script_not_launched os rel case t args w :
  isfile os w (Py.path_join (SCRIPTS_DIR os) rel) = false ->
  let r := run_script os rel case t args w in
  outcome r = inr (ScriptExecutionError
                     (TargetNotFound (Py.path_join (SCRIPTS_DIR os) rel))) /\
  emitted r = [EvIsFile (Py.path_join (SCRIPTS_DIR os) rel);
               EvLog ERROR (M_TargetNotFound (Py.path_join (SCRIPTS_DIR os) rel))] /\
  launches (emitted r) = [] /\
  after r = w.
Proof.
  intros H. cbv zeta. rewrite (run_script_not_found os rel case t args w H).
  repeat split.
Qed.

Lemma missing_script_not_launched_witness :
  outcome (run_script Toy.no_scripts "parsers/parse_irs_990xml.py" "Case1" 7200 [] [])
  = inr (ScriptExecutionError
           (TargetNotFound "/opt/irs990/scripts/parsers/parse_irs_990xml.py")) /\
  launches
    (emitted (run_script Toy.no_scripts "parsers/parse_irs_990xml.py" "Case1" 7200 [] []))
  = [].
Proof.
  destruct (missing_script_not_launched Toy.no_scripts
              "parsers/parse_irs_990xml.py" "Case1" 7200 [] [] eq_refl)
    as (Ho & _ & Hl & _).
  exact (conj Ho Hl).
Defined.
(** ** What a stage runs once the investigation exists *)










(** ** More on the validator and on the paths built from a name *)

Lemma class_star_end_newline (s : string) :
  all_allowed s = true -> re_class_star_end (s ++ String newline "") = true.
Proof.
  induction s as [|a rest IH]; [reflexivity|].
  cbn. intros H. apply andb_prop in H. destruct H as [Ha Hr].
  rewrite Ha. auto.
Qed.

Lemma no_dotdot_newline (s : string) :
  Py.str_in ".." s = false -> Py.str_in ".." (s ++ String newline "") = false.
Proof.
  induction s as [|a rest IH]; [reflexivity|].
  cbn [Py.str_in String.append]. intros H.
  destruct (String.prefix ".." (String a rest)) eqn:Hp; [discriminate H|].
  rewrite (IH H). revert Hp.
  cbn [String.prefix].
  destruct (ascii_dec "." a); [|reflexivity].
  destruct rest as [|b rest']; [reflexivity|].
  cbn [String.append String.prefix].
  destruct (ascii_dec "." b); [|reflexivity].
  destruct rest'; cbn; discriminate.
Qed.

(** X1: a name of allowed characters that the validator accepts is still
    accepted with a newline appended, because [$] matches before a final
    newline. *)
Theorem trailing_newline_accepted (s : string) :
  matches_allow_list s = true -> Py.str_in ".." s = false ->
  accepts (s ++ String newline "").
Proof.
  intros Hm Hd. unfold accepts, validate_case_name.
  unfold matches_allow_list in Hm. apply andb_prop in Hm. destruct Hm as [Hne Ha].
  destruct s as [|a rest]; [discriminate Hne|].
  cbn [String.append String.eqb re_match_case_name].
  cbn in Ha. apply andb_prop in Ha. destruct Ha as [Ha Hr].
  rewrite Ha, (class_star_end_newline rest Hr). cbn [andb negb].
  change (String a (rest ++ String newline ""))
    with (String a rest ++ String newline "")%string.
  now rewrite (no_dotdot_newline _ Hd).
Qed.

Lemma trailing_newline_accepted_witness :
  accepts (String "C" (String "1" (String newline ""))).
Proof.
  apply (trailing_newline_accepted "C1"); reflexivity.
Defined.

Lemma endswith_char_cons (x c : ascii) (t : string) :
  t <> ""%string ->
  Py.endswith (String x t) (String c "") = Py.endswith t (String c "").
Proof.
  intros Ht. unfold Py.endswith.
  destruct t as [|y t']; [contradiction|].
  cbn [String.length Nat.leb Nat.sub].
  rewrite !Nat.sub_0_r. reflexivity.
Qed.

Lemma endswith_char_app (a b : string) (c : ascii) :
  b <> ""%string ->
  Py.endswith (a ++ b) (String c "") = Py.endswith b (String c "").
Proof.
  intros Hb. induction a as [|x a IH]; [reflexivity|].
  cbn [String.append]. rewrite endswith_char_cons; [exact IH|].
  destruct a; cbn; [exact Hb | discriminate].
Qed.

Lemma endswith_last_char (s : string) (c : ascii) :
  Py.endswith s (String c "")
  = match last_char s with Some d => Ascii.eqb d c | None => false end.
Proof.
  induction s as [|x t IH]; [reflexivity|].
  destruct t as [|y t'].
  - unfold Py.endswith. cbn. destruct (Ascii.eqb x c); reflexivity.
  - rewrite endswith_char_cons by discriminate. exact IH.
Qed.

Lemma app_nonempty (a b : string) :
  b <> ""%string -> (a ++ b)%string <> ""%string.
Proof. intros Hb. destruct a; cbn; [exact Hb | discriminate]. Qed.

(** Joining a name that does not start with a separator onto a directory
    that is not empty and does not end with one. *)
Lemma path_join_plain (a b : string) :
  Py.startswith b "/" = false -> a <> ""%string -> Py.endswith a "/" = false ->
  Py.path_join a b = (a ++ "/" ++ b)%string.
Proof.
  intros Hb Ha He. unfold Py.path_join. rewrite Hb, He.
  destruct (String.eqb_spec a ""); [contradiction | reflexivity].
Qed.

Lemma path_join_word_shape (a b : string) :
  Py.startswith b "/" = false -> b <> ""%string -> Py.endswith b "/" = false ->
  Py.path_join a b <> ""%string /\ Py.endswith (Py.path_join a b) "/" = false.
Proof.
  intros Hs Hb He. unfold Py.path_join. rewrite Hs.
  destruct (String.eqb a "" || Py.endswith a "/").
  - split; [now apply app_nonempty|]. now rewrite endswith_char_app.
  - split.
    + apply app_nonempty. discriminate.
    + rewrite endswith_char_app by discriminate.
      change ("/" ++ b)%string with (String "/" b).
      now rewrite endswith_char_cons.
Qed.

Lemma accepted_shape (s : string) :
  accepts s ->
  s <> ""%string /\ Py.startswith s "/" = false /\
  Py.str_in "/" s = false /\ Py.str_in ".." s = false.
Proof.
  unfold accepts, validate_case_name. intros H.
  destruct (String.eqb_spec s ""); [discriminate H|].
  destruct (re_match_case_name s) eqn:Hm; [|discriminate H].
  cbn [negb] in H.
  destruct (Py.str_in ".." s) eqn:Hd; [discriminate H|].
  split; [assumption|]. split; [|split; [|reflexivity]].
  - destruct s as [|c rest]; [contradiction|].
    cbn in Hm. apply andb_prop in Hm. destruct Hm as [Hc _].
    unfold Py.startswith. cbn [String.prefix].
    destruct (ascii_dec "/" c) as [<-|]; [discriminate Hc | reflexivity].
  - destruct (Py.str_in "/" s) eqn:Hs; [|reflexivity].
    rewrite (re_match_excludes "/"%char s) in Hm;
      [discriminate Hm | reflexivity | discriminate | exact Hs].
Qed.

Lemma INVESTIGATIONS_DIR_shape os :
  INVESTIGATIONS_DIR os <> ""%string /\ Py.endswith (INVESTIGATIONS_DIR os) "/" = false.
Proof. apply path_join_word_shape; [reflexivity | discriminate | reflexivity]. Qed.

(** X2: the investigation directory of an accepted name is the
    investigations directory, a separator and the name: the name neither
    replaces the directory nor adds a level. *)
Theorem accepted_name_stays_below os (s : string) :
  accepts s ->
  investigation_path os s = (INVESTIGATIONS_DIR os ++ "/" ++ s)%string /\
  Py.str_in "/" s = false /\ Py.str_in ".." s = false.
Proof.
  intros H. destruct (accepted_shape s H) as (_ & Hs & Hsl & Hd).
  destruct (INVESTIGATIONS_DIR_shape os) as [Hn He].
  split; [|split; assumption].
  unfold investigation_path. now apply path_join_plain.
Qed.

Lemma accepted_name_stays_below_witness :
  investigation_path Toy.healthy "Case1" = "/opt/irs990/investigations/Case1"%string.
Proof.
  exact (proj1 (accepted_name_stays_below Toy.healthy "Case1" eq_refl)).
Defined.

(** X3: which error a refused name gets: a name with a path separator is
    reported for its characters, also when it contains [..]; a name of
    allowed characters that contains [..] is reported for path traversal. *)
Theorem refusal_reasons (s : string) :
  (Py.str_in "/" s = true \/ Py.str_in "\" s = true ->
   validate_case_name s = inr (InvalidCaseNameError (DisallowedCharacter s))) /\
  (matches_allow_list s = true -> Py.str_in ".." s = true ->
   validate_case_name s = inr (InvalidCaseNameError (PathTraversal s))).
Proof.
  split.
  - intros H.
    assert (Hm : re_match_case_name s = false).
    { destruct H as [H|H].
      - apply (re_match_excludes "/"%char); [reflexivity | discriminate | exact H].
      - apply (re_match_excludes "\"%char); [reflexivity | discriminate | exact H]. }
    unfold validate_case_name. rewrite Hm.
    destruct (String.eqb_spec s "") as [->|]; [|reflexivity].
    destruct H as [H|H]; discriminate H.
  - intros Hm Hd. unfold validate_case_name.
    rewrite (matches_allow_list_re_match s Hm), Hd.
    unfold matches_allow_list in Hm. apply andb_prop in Hm. destruct Hm as [Hne _].
    destruct (String.eqb s ""); [discriminate Hne | reflexivity].
Qed.

Lemma refusal_reasons_witness :
  validate_case_name "../etc"
    = inr (InvalidCaseNameError (DisallowedCharacter "../etc")) /\
  validate_case_name "a..b" = inr (InvalidCaseNameError (PathTraversal "a..b")).
Proof.
  split.
  - apply (proj1 (refusal_reasons "../etc")). left. reflexivity.
  - apply (proj2 (refusal_reasons "a..b")); reflexivity.
Defined.

(** ** More on the helper functions *)

(** X4: the investigation check returns whether the name is valid and its
    directory exists, never raises and leaves the world as it is; for an
    invalid name it does not ask the file system at all. *)
Theorem investigation_check os case w :
  let r := validate_investigation_exists os case w in
  outcome r = inl (succeeded (validate_case_name case)
                   && isdir os w (investigation_path os case)) /\
  after r = w /\
  dir_tests (emitted r)
  = (if succeeded (validate_case_name case) then [investigation_path os case] else []) /\
  forallb no_child (emitted r) = true /\
  forallb no_makedirs (emitted r) = true.
Proof.
  unfold validate_investigation_exists, investigation_path, bind, try_except, lift,
    os_path_isdir, log, emit, raise, ret. cbn.
  destruct (validate_case_name_cases case) as [H|[p H]]; rewrite H; cbn.
  - destruct (isdir os w (Py.path_join (INVESTIGATIONS_DIR os) case)); cbn;
      repeat split.
  - repeat split.
Qed.

(** What [run_script] does with a script that exists, by the way its
    child process ends. *)
Lemma run_script_launched os rel case t args w :
  isfile os w (Py.path_join (SCRIPTS_DIR os) rel) = true ->
  let r := run_script os rel case t args w in
  let p := popen os w (script_command os rel case args) (PROJECT_ROOT os) t in
  launch_records (emitted r)
  = [(script_command os rel case args, PROJECT_ROOT os, t)] /\
  outcome r
  = match snd p with
    | Returned rc _ _ =>
        if rc =? 0 then inl true
        else inr (ScriptExecutionError
                    (Unexpected rel case (CaughtNonZeroExit rel case rc)))
    | RaisedFileNotFound _ =>
        inr (ScriptExecutionError
               (ExecutionNotFound (Py.path_join (SCRIPTS_DIR os) rel)))
    | RaisedTimeout => inr (ScriptExecutionError (TimedOut rel case))
    | RaisedOther n m =>
        inr (ScriptExecutionError (Unexpected rel case (CaughtOther n m)))
    end /\
  kills (emitted r) = match snd p with RaisedTimeout => 1%nat | _ => 0%nat end /\
  after r = match snd p with
            | RaisedTimeout => fst (kill os (fst p))
            | _ => fst p
            end.
Proof.
  intros Hf. unfold run_script, script_command.
  revert Hf. generalize (Py.path_join (SCRIPTS_DIR os) rel) as path.
  intros path Hf.
  match goal with
  | |- context [Popen_communicate os ?c _ _] => generalize c as command
  end.
  intros command.
  unfold bind, try_except, os_path_isfile, Popen_communicate, kill_communicate,
    log, emit, when, raise, ret. cbn.
  rewrite Hf. cbn.
  destruct (popen os w command (PROJECT_ROOT os) t)
    as [w' [rc out err|msg| |n msg]]; cbn.
  - destruct (nonempty out), (nonempty err), (rc =? 0); cbn; repeat split.
  - repeat split.
  - destruct (kill os w') as [w'' [out err]]; cbn.
    destruct (nonempty out), (nonempty err); cbn; repeat split.
  - repeat split.
Qed.

(** X5: [run_script] returns True exactly when the script exists and its
    child process returns with status 0. *)
Theorem run_script_succeeds_iff os rel case t args w :
  outcome (run_script os rel case t args w) = inl true <->
  isfile os w (Py.path_join (SCRIPTS_DIR os) rel) = true /\
  exists out err,
    snd (popen os w (script_command os rel case args) (PROJECT_ROOT os) t)
    = Returned 0 out err.
Proof.
  destruct (isfile os w (Py.path_join (SCRIPTS_DIR os) rel)) eqn:Hf.
  - destruct (run_script_launched os rel case t args w Hf) as (_ & Ho & _).
    cbv zeta in Ho. rewrite Ho.
    destruct (snd (popen os w (script_command os rel case args) (PROJECT_ROOT os) t))
      as [rc out err|msg| |n msg].
    + destruct (Z.eqb_spec rc 0) as [->|N].
      * split; [intros _; split; [reflexivity | eauto] | reflexivity].
      * split; [discriminate|]. intros [_ (o & e & H)]. inversion H. contradiction.
    + split; [discriminate|]. intros [_ (o & e & H)]. discriminate H.
    + split; [discriminate|]. intros [_ (o & e & H)]. discriminate H.
    + split; [discriminate|]. intros [_ (o & e & H)]. discriminate H.
  - rewrite (run_script_not_found os rel case t args w Hf). cbn.
    split; [discriminate | intros [H _]; discriminate H].
Qed.



(** X7: a script that exists is launched exactly once, with the case name
    as first argument after the script path (through the interpreter when
    the path ends in [.py]), in the project root and with the timeout given;
    a script that does not exist is not launched. *)
Theorem run_script_launches_once os rel case t args w :
  let r := run_script os rel case t args w in
  (isfile os w (Py.path_join (SCRIPTS_DIR os) rel) = true ->
   launch_records (emitted r)
   = [(script_command os rel case args, PROJECT_ROOT os, t)]) /\
  (isfile os w (Py.path_join (SCRIPTS_DIR os) rel) = false ->
   launch_records (emitted r) = []) /\
  (Py.endswith (Py.path_join (SCRIPTS_DIR os) rel) ".py" = true ->
   script_command os rel case args
   = sys_executable os :: Py.path_join (SCRIPTS_DIR os) rel :: case :: args) /\
  (Py.endswith (Py.path_join (SCRIPTS_DIR os) rel) ".py" = false ->
   script_command os rel case args
   = Py.path_join (SCRIPTS_DIR os) rel :: case :: args).
Proof.
  cbv zeta. split; [|split; [|split]].
  - intros Hf. apply (run_script_launched os rel case t args w Hf).
  - intros Hf. now rewrite (run_script_not_found os rel case t args w Hf).
  - intros He. unfold script_command. now rewrite He.
  - intros He. unfold script_command. now rewrite He.
Qed.

Lemma run_script_launches_once_witness :
  launch_records
    (emitted (run_script Toy.healthy "parsers/parse_irs_990xml.py" "Case1" 7200 ["-v"] []))
  = [(["/usr/bin/python3"; "/opt/irs990/scripts/parsers/parse_irs_990xml.py";
       "Case1"; "-v"], "/opt/irs990", 7200)].
Proof.
  exact (proj1 (run_script_launches_once Toy.healthy "parsers/parse_irs_990xml.py"
                  "Case1" 7200 ["-v"] []) eq_refl).
Defined.

(** X8: the child process is killed exactly when waiting for it timed
    out, and then once; the world is then the one the kill leaves. *)
Theorem run_script_kills_on_timeout os rel case t args w :
  isfile os w (Py.path_join (SCRIPTS_DIR os) rel) = true ->
  let r := run_script os rel case t args w in
  let launch := popen os w (script_command os rel case args) (PROJECT_ROOT os) t in
  (snd launch = RaisedTimeout ->
   kills (emitted r) = 1%nat /\ after r = fst (kill os (fst launch))) /\
  (snd launch <> RaisedTimeout ->
   kills (emitted r) = 0%nat /\ after r = fst launch).
Proof.
  intros Hf. cbv zeta.
  destruct (run_script_launched os rel case t args w Hf) as (_ & _ & Hk & Ha).
  cbv zeta in Hk, Ha. rewrite Hk, Ha.
  split.
  - intros E. rewrite E. split; reflexivity.
  - intros N.
    destruct (snd (popen os w (script_command os rel case args) (PROJECT_ROOT os) t));
      try (split; reflexivity).
    contradiction.
Qed.

Lemma run_script_succeeds_iff_witness :
  outcome (run_script Toy.healthy "parsers/parse_irs_990xml.py" "Case1" 7200 [] [])
  = inl true.
Proof.
  apply (proj2 (run_script_succeeds_iff Toy.healthy "parsers/parse_irs_990xml.py"
                  "Case1" 7200 [] [])).
  split; [reflexivity|]. exists "done"%string, ""%string. reflexivity.
Defined.

Lemma run_script_kills_on_timeout_witness :
  kills (emitted (run_script (Toy.machine Toy.all_scripts None RaisedTimeout)
                    "parsers/parse_irs_990xml.py" "Case1" 5 [] []))
  = 1%nat.
Proof.
  refine (proj1 (proj1 (run_script_kills_on_timeout
                          (Toy.machine Toy.all_scripts None RaisedTimeout)
                          "parsers/parse_irs_990xml.py" "Case1" 5 [] [] _) _));
    reflexivity.
Defined.
(** ** Which stage can emit which events *)

Ltac obey_all :=
  repeat first
    [ apply obeys_ret
    | apply obeys_log; solve [auto]
    | apply obeys_raise; reflexivity
    | apply obeys_isdir; solve [auto]
    | apply obeys_isfile; solve [auto]
    | apply obeys_kill; solve [auto]
    | apply obeys_when
    | match goal with
      | |- obeys _ _ _ (if ?b then _ else _) => destruct b
      | |- obeys _ _ _ (let '(_, _) := ?p in _) => destruct p
      end
    | apply obeys_bind; [|intros ?] ].

Lemma obeys_validate_case_name os P Q {A} (k : M os A) case :
  (forall p, Q (InvalidCaseNameError p) = true) ->
  obeys os P Q k ->
  obeys os P Q (bind os (lift os (validate_case_name case)) (fun _ => k)).
Proof.
  intros HQ Hk. apply obeys_bind; [|intros _; exact Hk].
  apply obeys_lift. intros e He.
  destruct (validate_case_name_cases case) as [H|[p H]]; rewrite H in He;
    inversion He; apply HQ.
Qed.

Lemma validate_investigation_exists_allowed os P Q case :
  allows_logs P -> allows_dir_tests P ->
  obeys os P Q (validate_investigation_exists os case).
Proof.
  intros HL HD w.
  destruct (validate_investigation_exists_run os case w) as (_ & Ho & _).
  split; [|rewrite Ho; discriminate].
  unfold validate_investigation_exists, bind, try_except, lift, os_path_isdir,
    log, emit, raise, ret. cbn.
  destruct (validate_case_name_cases case) as [H|[p H]]; rewrite H; cbn.
  - destruct (isdir os w (Py.path_join (INVESTIGATIONS_DIR os) case)); cbn;
      now rewrite ?HL, ?HD.
  - now rewrite HL.
Qed.

Lemma run_script_allowed os P rel case t args :
  allows_logs P -> allows_scripts P ->
  obeys os P is_OrchestratorError (run_script os rel case t args).
Proof.
  intros HL (HF & HPo & HK). unfold run_script.
  apply obeys_bind; [apply obeys_isfile; auto | intros found].
  destruct found; cbn [negb]; [|obey_all].
  apply obeys_bind; [obey_all | intros _].
  apply obeys_try with (Q' := is_Exception).
  - apply obeys_bind; [apply obeys_popen; auto | intros [[rc out] err]].
    obey_all.
  - intros e He. destruct e; try discriminate He; cbn; obey_all.
Qed.

Lemma try_run_script_allowed os P Q rel script_args case t flag :
  allows_logs P -> allows_scripts P ->
  obeys os P Q (try_run_script os rel script_args case t flag).
Proof.
  intros HL HS w. rewrite try_run_script_eq. cbn [emitted outcome].
  split; [|discriminate].
  apply (run_script_allowed os P rel case t script_args HL HS w).
Qed.

Lemma for_scripts_allowed os P Q scripts case t :
  allows_logs P -> allows_scripts P ->
  forall flag, obeys os P Q (for_scripts os scripts case t flag).
Proof.
  intros HL HS. induction scripts as [|[rel a] rest IH]; intros flag;
    cbn [for_scripts].
  - apply obeys_ret.
  - apply obeys_bind; [now apply try_run_script_allowed | intros b; apply IH].
Qed.

Lemma make_subdirs_allowed os P path subdirs :
  allows_makedirs P ->
  obeys os P is_OSError (make_subdirs os path subdirs).
Proof.
  intros HM. induction subdirs as [|d rest IH]; cbn [make_subdirs].
  - apply obeys_ret.
  - apply obeys_bind; [|intros _; exact IH].
    apply obeys_makedirs; [apply HM | reflexivity].
Qed.

Lemma stage_0_allowed os P case t :
  allows_logs P -> allows_makedirs P ->
  obeys os P is_SetupError (stage_0_setup_investigation os case t).
Proof.
  intros HL HM. unfold stage_0_setup_investigation.
  apply obeys_bind; [obey_all | intros _].
  apply obeys_bind; [|intros _; apply obeys_bind; [|intros _; obey_all]].
  - apply obeys_try
      with (Q' := fun e => match e with InvalidCaseNameError _ => true | _ => false end).
    + apply obeys_validate_case_name; [reflexivity | apply obeys_ret].
    + intros e He. destruct e; try discriminate He. obey_all.
  - apply obeys_try with (Q' := is_OSError).
    + apply obeys_bind; [obey_all|intros _].
      apply obeys_bind; [apply obeys_makedirs; [apply HM | reflexivity]|intros _].
      apply obeys_bind; [obey_all|intros _].
      apply obeys_bind; [now apply make_subdirs_allowed|intros _; obey_all].
    + intros e He. rewrite He. obey_all.
Qed.

Lemma SetupError_is_OrchestratorError (e : exn) :
  is_SetupError e = true -> is_OrchestratorError e = true.
Proof. destruct e; cbn; auto. Qed.

Ltac obey_stage :=
  apply obeys_bind; [obey_all | intros _];
  apply obeys_bind; [now apply validate_investigation_exists_allowed | intros [|]];
  cbn [negb];
  repeat first
    [ now apply for_scripts_allowed
    | now apply try_run_script_allowed
    | apply obeys_ret
    | apply obeys_log; solve [auto]
    | apply obeys_raise; reflexivity
    | match goal with
      | |- obeys _ _ _ (if ?b then _ else _) => destruct b
      end
    | apply obeys_bind; [|intros ?] ].

Lemma stage_1_allowed os P case sel t :
  allows_logs P -> allows_dir_tests P -> allows_scripts P ->
  obeys os P is_OrchestratorError (stage_1_acquire_source_documents os case sel t).
Proof.
  intros HL HD HS. unfold stage_1_acquire_source_documents. obey_stage.
Qed.

Lemma stage_2_allowed os P case sel t :
  allows_logs P -> allows_dir_tests P -> allows_scripts P ->
  obeys os P is_OrchestratorError (stage_2_datashare_processing os case sel t).
Proof.
  intros HL HD HS. unfold stage_2_datashare_processing. obey_stage.
Qed.

Lemma stage_3_allowed os P case sel t :
  allows_logs P -> allows_dir_tests P -> allows_scripts P ->
  obeys os P is_OrchestratorError (stage_3_parse_and_structure_data os case sel t).
Proof.
  intros HL HD HS. unfold stage_3_parse_and_structure_data. obey_stage.
Qed.

Lemma stage_4_allowed os P case sel t :
  allows_logs P -> allows_dir_tests P -> allows_scripts P ->
  obeys os P is_OrchestratorError (stage_4_analysis_and_reporting os case sel t).
Proof.
  intros HL HD HS. unfold stage_4_analysis_and_reporting. obey_stage.
Qed.

Lemma stage_5_allowed os P case t :
  allows_logs P -> allows_dir_tests P ->
  obeys os P is_OrchestratorError (stage_5_package_for_review os case t).
Proof.
  intros HL HD. unfold stage_5_package_for_review.
  apply obeys_bind; [obey_all | intros _].
  apply obeys_bind; [now apply validate_investigation_exists_allowed | intros [|]];
    cbn [negb]; obey_all.
Qed.

Lemma dispatch_allowed os P args s :
  allows_logs P -> allows_dir_tests P ->
  (s = "setup"%string -> allows_makedirs P) ->
  (In s ["acquire"; "datashare"; "parse"; "analyze"]%string -> allows_scripts P) ->
  obeys os P is_OrchestratorError (dispatch os args s).
Proof.
  intros HL HD HM HS. unfold dispatch.
  destruct (String.eqb_spec s "setup") as [->|N0];
    [apply obeys_weaken with (Q := is_SetupError);
       [apply SetupError_is_OrchestratorError | apply stage_0_allowed; auto]|].
  destruct (String.eqb_spec s "acquire") as [->|N1];
    [apply stage_1_allowed; auto; apply HS; cbn; tauto|].
  destruct (String.eqb_spec s "datashare") as [->|N2];
    [apply stage_2_allowed; auto; apply HS; cbn; tauto|].
  destruct (String.eqb_spec s "parse") as [->|N3];
    [apply stage_3_allowed; auto; apply HS; cbn; tauto|].
  destruct (String.eqb_spec s "analyze") as [->|N4];
    [apply stage_4_allowed; auto; apply HS; cbn; tauto|].
  destruct (String.eqb_spec s "package") as [->|N5];
    [apply stage_5_allowed; auto|].
  obey_all.
Qed.

Lemma run_stage_allowed os P Q args flag s :
  allows_logs P ->
  obeys os P is_OrchestratorError (dispatch os args s) ->
  obeys os P Q (run_stage os args flag s).
Proof.
  intros HL Hd. unfold run_stage.
  apply obeys_try with (Q' := is_OrchestratorError).
  - destruct (negb flag && negb (Py.list_in s ["setup"%string])); [obey_all|].
    apply obeys_bind; [obey_all | intros _].
    apply obeys_bind; [exact Hd | intros [|]]; cbn [negb]; obey_all.
  - intros e He. rewrite He. obey_all.
Qed.

Lemma for_stages_allowed os P Q args stages :
  allows_logs P ->
  (forall s, In s stages -> obeys os P is_OrchestratorError (dispatch os args s)) ->
  forall flag, obeys os P Q (for_stages os args stages flag).
Proof.
  intros HL. induction stages as [|s rest IH]; intros Hd flag; cbn [for_stages].
  - apply obeys_ret.
  - apply obeys_bind.
    + apply run_stage_allowed; [exact HL|]. apply Hd. now left.
    + intros b. apply IH. intros s' Hin. apply Hd. now right.
Qed.

(** Whatever every requested stage may emit, the whole run may emit. *)
Lemma main_allowed os P args :
  allows_logs P ->
  (forall s, In s (stages_to_run_ordered (stage args)) ->
             obeys os P is_OrchestratorError (dispatch os args s)) ->
  forall w, forallb P (emitted (main os args w)) = true.
Proof.
  intros HL Hd w.
  assert (H : obeys os P (fun _ => true) (main os args)).
  { unfold main, sys_exit.
    do 5 (apply obeys_bind; [obey_all | intros _]).
    apply obeys_bind; [|intros _].
    - apply obeys_try with (Q' := is_OrchestratorError).
      + apply obeys_validate_case_name; [reflexivity | apply obeys_ret].
      + intros e He. destruct e; try reflexivity. obey_all.
    - apply obeys_bind; [obey_all | intros _].
      apply obeys_bind; [now apply for_stages_allowed | intros b].
      obey_all. }
  apply H.
Qed.

Lemma no_child_readings (tr : list event) :
  forallb no_child tr = true ->
  scripts_tried tr = [] /\ launches tr = [] /\ launch_records tr = [] /\
  kills tr = 0%nat.
Proof.
  induction tr as [|e tr IH]; [repeat split|].
  cbn [forallb]. intros H. apply andb_prop in H. destruct H as [He Ht].
  destruct e; cbn; auto; discriminate He.
Qed.

Lemma no_makedirs_reading (tr : list event) :
  forallb no_makedirs tr = true -> directories_made tr = [].
Proof.
  induction tr as [|e tr IH]; [reflexivity|].
  cbn [forallb]. intros H. apply andb_prop in H. destruct H as [He Ht].
  destruct e; cbn; auto; discriminate He.
Qed.

Lemma no_child_allows : allows_logs no_child /\ allows_dir_tests no_child /\
  allows_makedirs no_child.
Proof. repeat split. Qed.

Lemma no_makedirs_allows : allows_logs no_makedirs /\ allows_dir_tests no_makedirs /\
  allows_scripts no_makedirs.
Proof. repeat split. Qed.

(** X9: the setup stage never looks for a script, never launches a child
    process and never kills one, whatever it is given and whatever the
    machine does. *)
Theorem setup_runs_no_script os case t w :
  let r := stage_0_setup_investigation os case t w in
  scripts_tried (emitted r) = [] /\ launches (emitted r) = [] /\
  launch_records (emitted r) = [] /\ kills (emitted r) = 0%nat /\
  (forall e, outcome r = inr e -> exists p, e = SetupError p).
Proof.
  cbv zeta.
  destruct no_child_allows as (HL & HD & HM).
  destruct (stage_0_allowed os no_child case t HL HM w) as [He Ho].
  destruct (no_child_readings _ He) as (H1 & H2 & H3 & H4).
  repeat (split; [assumption|]).
  intros e E. specialize (Ho e E). destruct e; try discriminate Ho. eauto.
Qed.

(** X17: a run whose stages do not include setup makes no directory. *)
Theorem directories_made_only_by_setup os args w :
  ~ In "setup"%string (stages_to_run_ordered (stage args)) ->
  directories_made (emitted (main os args w)) = [].
Proof.
  intros N. apply no_makedirs_reading.
  destruct no_makedirs_allows as (HL & HD & HS).
  apply main_allowed; [exact HL|].
  intros s Hin. apply dispatch_allowed; auto.
  intros ->. contradiction.
Qed.

(** X18: a run whose stages are all outside acquire, datashare, parse and
    analyze looks for no script and launches no child process. *)
Theorem children_launched_only_by_script_stages os args w :
  (forall s, In s (stages_to_run_ordered (stage args)) ->
             ~ In s ["acquire"; "datashare"; "parse"; "analyze"]%string) ->
  scripts_tried (emitted (main os args w)) = [] /\
  launches (emitted (main os args w)) = [] /\
  kills (emitted (main os args w)) = 0%nat.
Proof.
  intros N.
  destruct no_child_allows as (HL & HD & HM).
  assert (H : forallb no_child (emitted (main os args w)) = true).
  { apply main_allowed; [exact HL|].
    intros s Hin. apply dispatch_allowed; auto.
    intros Hs. destruct (N s Hin Hs). }
  destruct (no_child_readings _ H) as (H1 & H2 & _ & H4). auto.
Qed.
(** ** The setup stage, step by step *)

Lemma string_app_assoc (a b c : string) :
  ((a ++ b) ++ c)%string = (a ++ (b ++ c))%string.
Proof. induction a as [|x a IH]; cbn; [reflexivity | now rewrite IH]. Qed.

Lemma string_app_empty (a : string) : (a ++ "")%string = a.
Proof. induction a as [|x a IH]; cbn; [reflexivity | now rewrite IH]. Qed.

(** Joining plain components onto a directory spells them behind it. *)
Lemma fold_path_join_plain (parts : list string) : forall p,
  forallb plain_part parts = true ->
  p <> ""%string -> Py.endswith p "/" = false ->
  fold_left Py.path_join parts p = (p ++ below parts)%string.
Proof.
  induction parts as [|x rest IH]; intros p Hp Hn He; cbn [fold_left below].
  - now rewrite string_app_empty.
  - cbn [forallb] in Hp. apply andb_prop in Hp. destruct Hp as [Hx Hr].
    unfold plain_part in Hx.
    apply andb_prop in Hx. destruct Hx as [Hx H3].
    apply andb_prop in Hx. destruct Hx as [H1 H2].
    apply negb_true_iff in H1, H2, H3.
    assert (Hxn : x <> ""%string) by now apply String.eqb_neq.
    rewrite (path_join_plain p x H1 Hn He).
    rewrite IH; [| exact Hr | |].
    + now rewrite !string_app_assoc.
    + apply app_nonempty. discriminate.
    + rewrite endswith_char_app by discriminate.
      change ("/" ++ x)%string with (String "/" x).
      now rewrite endswith_char_cons.
Qed.

Lemma subdir_path_plain (p d : string) :
  plain_relative d = true ->
  p <> ""%string -> Py.endswith p "/" = false ->
  subdir_path p d = (p ++ "/" ++ d)%string.
Proof.
  unfold plain_relative, subdir_path. intros H Hn He.
  apply andb_prop in H. destruct H as [Hp Hb].
  apply String.eqb_eq in Hb.
  rewrite fold_path_join_plain by assumption. now rewrite Hb.
Qed.

Lemma standard_subdirs_plain : forallb plain_relative standard_subdirs = true.
Proof. vm_compute. reflexivity. Qed.

Lemma no_separator_no_end (s : string) :
  Py.str_in "/" s = false -> Py.endswith s "/" = false.
Proof.
  rewrite endswith_last_char.
  induction s as [|c rest IH]; [reflexivity|].
  cbn [Py.str_in String.prefix last_char].
  destruct (ascii_dec "/" c) as [<-|N].
  - destruct rest; discriminate.
  - intros H. destruct rest as [|d rest'].
    + destruct (Ascii.eqb_spec c "/"); [congruence | reflexivity].
    + apply IH. exact H.
Qed.

Lemma investigation_path_shape os (s : string) :
  accepts s ->
  investigation_path os s <> ""%string /\
  Py.endswith (investigation_path os s) "/" = false.
Proof.
  intros H. destruct (accepted_shape s H) as (Hn & Hs & Hsl & _).
  unfold investigation_path. apply path_join_word_shape; auto.
  now apply no_separator_no_end.
Qed.

(** The loop over the subdirectories: it makes them in order and stops at
    the first that cannot be made. *)
Lemma make_subdirs_run os path subdirs : forall w,
  let r := make_subdirs os path subdirs w in
  emitted r = map EvMakedirs (directories_made (emitted r)) /\
  (exists rest, map (subdir_path path) subdirs = directories_made (emitted r) ++ rest) /\
  (outcome r = inl tt ->
   directories_made (emitted r) = map (subdir_path path) subdirs) /\
  (outcome r = inl tt \/ exists msg, outcome r = inr (OSError msg)) /\
  (makedirs_keeps os ->
   forall q, isdir os w q = true -> isdir os (after r) q = true).
Proof.
  induction subdirs as [|d rest IH]; intros w; cbv zeta.
  - cbn. repeat split; eauto.
  - cbn [make_subdirs map]. fold (subdir_path path d).
    unfold bind, os_makedirs.
    destruct (makedirs os w (subdir_path path d)) as [w' [msg|]] eqn:Em;
      cbn [after emitted outcome app directories_made map].
    + split; [reflexivity|]. split.
      { exists (map (subdir_path path) rest). reflexivity. }
      split; [discriminate|]. split; [right; eauto|].
      intros Hk q Hq. apply (Hk _ _ _ _ _ Em Hq).
    + specialize (IH w'). cbv zeta in IH.
      destruct IH as (IHe & (tl & IHp) & IHo & IHr & IHk).
      split; [now rewrite <- IHe|]. split.
      { exists tl. now rewrite IHp. }
      split; [intros Ho; now rewrite (IHo Ho)|]. split; [exact IHr|].
      intros Hk q Hq. apply (IHk Hk). apply (Hk _ _ _ _ _ Em Hq).
Qed.

(** The setup stage for a valid name, by what [os.makedirs] does. *)
Lemma stage_0_valid os case t w :
  validate_case_name case = inl true ->
  let path := investigation_path os case in
  let base := makedirs os w path in
  let subs := make_subdirs os path standard_subdirs (fst base) in
  let r := stage_0_setup_investigation os case t w in
  match snd base with
  | Some msg =>
      outcome r = inr (SetupError (SetupMkdirFailed case msg)) /\
      directories_made (emitted r) = [path] /\
      after r = fst base
  | None =>
      directories_made (emitted r) = path :: directories_made (emitted subs) /\
      after r = after subs /\
      outcome r = match outcome subs with
                  | inl _ => inl true
                  | inr e => inr (SetupError (SetupMkdirFailed case (oserror_text e)))
                  end
  end.
Proof.
  intros Hv. cbv zeta. unfold investigation_path.
  set (path := Py.path_join (INVESTIGATIONS_DIR os) case).
  assert (Ev : try_except os
                 (bind os (lift os (validate_case_name case)) (fun _ => ret os tt))
                 (fun e => match e with
                           | InvalidCaseNameError p =>
                               Some (bind os (log os ERROR (M_InvalidCaseName p))
                                       (fun _ => raise os (SetupError (SetupBadName p))))
                           | _ => None
                           end) w = MkRun w [] (inl tt)).
  { eapply try_passed. unfold bind, lift. rewrite Hv. reflexivity. }
  assert (Eb : os_makedirs os path w
               = MkRun (fst (makedirs os w path)) [EvMakedirs path]
                   match snd (makedirs os w path) with
                   | None => inl tt
                   | Some msg => inr (OSError msg)
                   end).
  { unfold os_makedirs. destruct (makedirs os w path) as [w' r]. reflexivity. }
  destruct (make_subdirs_run os path standard_subdirs (fst (makedirs os w path)))
    as (Hem & _ & _ & Hor & _). cbv zeta in Hem, Hor.
  assert (Esub : make_subdirs os path standard_subdirs (fst (makedirs os w path))
                 = MkRun (after (make_subdirs os path standard_subdirs
                                   (fst (makedirs os w path))))
                     (emitted (make_subdirs os path standard_subdirs
                                 (fst (makedirs os w path))))
                     (outcome (make_subdirs os path standard_subdirs
                                 (fst (makedirs os w path))))) by apply run_eta.
  set (subs := make_subdirs os path standard_subdirs (fst (makedirs os w path))) in *.
  unfold stage_0_setup_investigation. fold path.
  destruct (snd (makedirs os w path)) as [msg|] eqn:Es.
  - erewrite bind_then;
      [| reflexivity
       | eapply bind_then;
           [ exact Ev
           | eapply bind_raised; eapply try_caught;
               [ eapply bind_then; [reflexivity | eapply bind_raised; exact Eb]
               | reflexivity
               | eapply bind_then; reflexivity ] ] ].
    cbn. repeat split.
  - destruct Hor as [Ho|[msg Ho]]; rewrite Ho in Esub.
    + erewrite bind_then;
        [| reflexivity
         | eapply bind_then;
             [ exact Ev
             | eapply bind_then;
                 [ eapply try_passed;
                   eapply bind_then;
                     [ reflexivity
                     | eapply bind_then;
                         [ exact Eb
                         | eapply bind_then;
                             [ reflexivity
                             | eapply bind_then;
                                 [ exact Esub
                                 | reflexivity ] ] ] ]
                 | eapply bind_then; reflexivity ] ] ].
      rewrite Ho. cbn [emitted after outcome app directories_made].
      rewrite !directories_made_app. cbn [directories_made]. now rewrite !app_nil_r.
    + erewrite bind_then;
        [| reflexivity
         | eapply bind_then;
             [ exact Ev
             | eapply bind_raised; eapply try_caught;
                 [ eapply bind_then;
                     [ reflexivity
                     | eapply bind_then;
                         [ exact Eb
                         | eapply bind_then;
                             [ reflexivity
                             | eapply bind_raised; exact Esub ] ] ]
                 | reflexivity
                 | eapply bind_then; reflexivity ] ] ].
      rewrite Ho. cbn [emitted after outcome app directories_made oserror_text].
      rewrite !directories_made_app. cbn [directories_made]. now rewrite !app_nil_r.
Qed.
Lemma stage_0_invalid os case t w p :
  validate_case_name case = inr (InvalidCaseNameError p) ->
  stage_0_setup_investigation os case t w
  = MkRun w [EvLog INFO (M_StageBanner 0 case None);
             EvLog ERROR (M_InvalidCaseName p)]
      (inr (SetupError (SetupBadName p))).
Proof.
  intros H. unfold stage_0_setup_investigation.
  erewrite bind_then;
    [| reflexivity
     | eapply bind_raised; eapply try_caught;
         [ eapply bind_raised; unfold lift; rewrite H; reflexivity
         | reflexivity
         | eapply bind_then; reflexivity ] ].
  reflexivity.
Qed.

(** X10: given a name the validator refuses, the setup stage raises its
    setup error carrying the validator's reason before any directory is
    made; the world is unchanged. *)
Theorem setup_refuses_invalid_name os case t w :
  validate_case_name case <> inl true ->
  let r := stage_0_setup_investigation os case t w in
  directories_made (emitted r) = [] /\
  after r = w /\
  exists p, validate_case_name case = inr (InvalidCaseNameError p) /\
            outcome r = inr (SetupError (SetupBadName p)).
Proof.
  intros N. cbv zeta.
  destruct (validate_case_name_cases case) as [H|[p H]]; [contradiction|].
  rewrite (stage_0_invalid os case t w p H). cbn.
  split; [reflexivity|]. split; [reflexivity|]. eauto.
Qed.

Lemma setup_refuses_invalid_name_witness :
  outcome (stage_0_setup_investigation Toy.healthy "../x" 7200 [])
  = inr (SetupError (SetupBadName (DisallowedCharacter "../x"))) /\
  after (stage_0_setup_investigation Toy.healthy "../x" 7200 []) = [].
Proof.
  assert (N : validate_case_name "../x" <> inl true) by (vm_compute; discriminate).
  destruct (setup_refuses_invalid_name Toy.healthy "../x" 7200 [] N)
    as (_ & Ha & p & Hp & Ho).
  split; [|exact Ha].
  rewrite Ho. vm_compute in Hp. inversion Hp. reflexivity.
Defined.

Lemma standard_subdir_paths os (s : string) :
  accepts s ->
  map (subdir_path (investigation_path os s)) standard_subdirs
  = map (fun d => (investigation_path os s ++ "/" ++ d)%string) standard_subdirs.
Proof.
  intros H. destruct (investigation_path_shape os s H) as [Hn He].
  apply map_ext_in. intros d Hd.
  apply subdir_path_plain; [|exact Hn|exact He].
  exact (proj1 (forallb_forall _ _) standard_subdirs_plain d Hd).
Qed.

(** X11: when the setup stage returns True for an accepted name, the
    directories it made are the case root and then each standard
    subdirectory below it, in the order of the list. *)
Theorem setup_makes_case_layout os case t w :
  accepts case ->
  outcome (stage_0_setup_investigation os case t w) = inl true ->
  directories_made (emitted (stage_0_setup_investigation os case t w))
  = case_layout os case.
Proof.
  intros Ha Ho.
  pose proof (stage_0_valid os case t w Ha) as H. cbv zeta in H.
  destruct (make_subdirs_run os (investigation_path os case) standard_subdirs
              (fst (makedirs os w (investigation_path os case))))
    as (_ & _ & Hs & _). cbv zeta in Hs.
  destruct (snd (makedirs os w (investigation_path os case))) as [msg|].
  - destruct H as (Hf & _). rewrite Hf in Ho. discriminate Ho.
  - destruct H as (Hd & _ & Hout). rewrite Hd. unfold case_layout. f_equal.
    rewrite Hout in Ho.
    destruct (outcome (make_subdirs os (investigation_path os case) standard_subdirs
                         (fst (makedirs os w (investigation_path os case)))))
      as [[]|e]; [|discriminate Ho].
    rewrite (Hs eq_refl). now apply standard_subdir_paths.
Qed.

Lemma setup_makes_case_layout_witness :
  directories_made (emitted (stage_0_setup_investigation Toy.healthy "Case1" 7200 []))
  = case_layout Toy.healthy "Case1".
Proof.
  apply (setup_makes_case_layout Toy.healthy "Case1" 7200 []); reflexivity.
Defined.

(** X13: for a valid name the setup stage either returns True or raises
    the setup error for a directory that could not be made, with the text
    of the OS error; the directories it tried are an initial part of the
    layout, and when the case root itself cannot be made nothing else is
    tried. *)
Theorem setup_stops_at_failure os case t w :
  validate_case_name case = inl true ->
  let path := investigation_path os case in
  let r := stage_0_setup_investigation os case t w in
  (outcome r = inl true \/
   exists msg, outcome r = inr (SetupError (SetupMkdirFailed case msg))) /\
  (exists rest,
     path :: map (subdir_path path) standard_subdirs
     = directories_made (emitted r) ++ rest) /\
  (forall msg, snd (makedirs os w path) = Some msg ->
   outcome r = inr (SetupError (SetupMkdirFailed case msg)) /\
   directories_made (emitted r) = [path] /\
   after r = fst (makedirs os w path)).
Proof.
  intros Hv. cbv zeta.
  pose proof (stage_0_valid os case t w Hv) as H. cbv zeta in H.
  destruct (make_subdirs_run os (investigation_path os case) standard_subdirs
              (fst (makedirs os w (investigation_path os case))))
    as (_ & (tl & Hp) & _ & Hor & _). cbv zeta in Hp, Hor.
  destruct (snd (makedirs os w (investigation_path os case))) as [msg|].
  - destruct H as (Hf & Hd & Hw). split; [right; eauto|]. split.
    + rewrite Hd. eexists. reflexivity.
    + intros m E. inversion E; subst. auto.
  - destruct H as (Hd & _ & Hout). split; [|split].
    + rewrite Hout. destruct Hor as [Ho|[m Ho]]; rewrite Ho; [now left|].
      right. eauto.
    + rewrite Hd, Hp. exists tl. reflexivity.
    + discriminate.
Qed.

Lemma setup_stops_at_failure_witness :
  outcome (stage_0_setup_investigation Toy.read_only "Case1" 7200 [])
  = inr (SetupError (SetupMkdirFailed "Case1" "Read-only file system")) /\
  directories_made (emitted (stage_0_setup_investigation Toy.read_only "Case1" 7200 []))
  = ["/opt/irs990/investigations/Case1"%string].
Proof.
  destruct (proj2 (proj2 (setup_stops_at_failure Toy.read_only "Case1" 7200 [] eq_refl))
              "Read-only file system"%string eq_refl) as (Ho & Hd & _).
  exact (conj Ho Hd).
Defined.

(** X12: on a machine where a directory made exists afterwards and making
    directories removes none, the investigation check passes in the world
    a successful setup leaves. *)
Theorem setup_establishes_investigation os case t w :
  makedirs_creates os -> makedirs_keeps os ->
  outcome (stage_0_setup_investigation os case t w) = inl true ->
  outcome (validate_investigation_exists os case
             (after (stage_0_setup_investigation os case t w)))
  = inl true.
Proof.
  intros Hc Hk Ho.
  destruct (validate_case_name_cases case) as [Hv|[p Hv]].
  2: { rewrite (stage_0_invalid os case t w p Hv) in Ho. discriminate Ho. }
  pose proof (stage_0_valid os case t w Hv) as H. cbv zeta in H.
  destruct (make_subdirs_run os (investigation_path os case) standard_subdirs
              (fst (makedirs os w (investigation_path os case))))
    as (_ & _ & _ & _ & Hkeep). cbv zeta in Hkeep.
  destruct (makedirs os w (investigation_path os case)) as [w' [msg|]] eqn:Em;
    cbn [fst snd] in H, Hkeep.
  - destruct H as (Hf & _). rewrite Hf in Ho. discriminate Ho.
  - destruct H as (_ & Ha & _).
    destruct (validate_investigation_exists_run os case
                (after (stage_0_setup_investigation os case t w)))
      as (_ & Hout & _).
    rewrite Hout, Hv, Ha. cbn [succeeded andb].
    fold (investigation_path os case).
    rewrite (Hkeep Hk (investigation_path os case) (Hc _ _ _ Em)). reflexivity.
Qed.

Lemma toy_makedirs_creates files e child : makedirs_creates (Toy.machine files e child).
Proof.
  intros w p w'. cbn. destruct e as [msg|]; [discriminate|].
  intros H. inversion H; subst.
  destruct (Py.list_in p w) eqn:E; [exact E|].
  unfold Py.list_in. cbn. now rewrite String.eqb_refl.
Qed.

Lemma toy_makedirs_keeps files e child : makedirs_keeps (Toy.machine files e child).
Proof.
  intros w p w' r q. cbn. destruct e as [msg|]; intros H; inversion H; subst;
    [auto|].
  intros Hq. destruct (Py.list_in p w); [exact Hq|].
  unfold Py.list_in in *. cbn. rewrite Hq. apply orb_true_r.
Qed.

Lemma setup_establishes_investigation_witness :
  outcome (validate_investigation_exists Toy.healthy "Case1"
             (after (stage_0_setup_investigation Toy.healthy "Case1" 7200 [])))
  = inl true.
Proof.
  apply (setup_establishes_investigation Toy.healthy "Case1" 7200 []).
  - apply toy_makedirs_creates.
  - apply toy_makedirs_keeps.
  - reflexivity.
Defined.
(** ** The other stages and the exit status *)

Lemma validate_investigation_exists_warnings os case w :
  warnings (emitted (validate_investigation_exists os case w)) = [].
Proof.
  unfold validate_investigation_exists, bind, try_except, lift, os_path_isdir,
    log, emit, raise, ret. cbn.
  destruct (validate_case_name_cases case) as [H|[p H]]; rewrite H; cbn;
    [|reflexivity].
  destruct (isdir os w (Py.path_join (INVESTIGATIONS_DIR os) case)); reflexivity.
Qed.

Lemma warnings_app (a b : list event) : warnings (a ++ b) = warnings a ++ warnings b.
Proof.
  induction a as [|e a IH]; [reflexivity|].
  destruct e as [l m| | | | |]; cbn; try exact IH.
  destruct l; cbn; try exact IH. now rewrite IH.
Qed.

Lemma validate_investigation_exists_passed_eq os case w :
  outcome (validate_investigation_exists os case w) = inl true ->
  exists tr,
    validate_investigation_exists os case w = MkRun w tr (inl true) /\
    forallb passive_event tr = true /\ warnings tr = [].
Proof.
  intros Hv.
  destruct (validate_investigation_exists_run os case w) as (Ha & _ & _ & Hp).
  exists (emitted (validate_investigation_exists os case w)).
  split; [|split; [exact Hp | apply validate_investigation_exists_warnings]].
  rewrite (run_eta os (validate_investigation_exists os case w)) at 1.
  now rewrite Ha, Hv.
Qed.

(** X14: the package stage is a placeholder: when the investigation check
    passes it returns True, otherwise it raises its stage error; either way
    it looks for no script, launches nothing, makes no directory and leaves
    the world as it is. *)
Theorem package_is_placeholder os case t w :
  let r := stage_5_package_for_review os case t w in
  outcome r
  = (if succeeded (validate_case_name case) && isdir os w (investigation_path os case)
     then inl true
     else inr (StageError (InvestigationMissing "package" case))) /\
  scripts_tried (emitted r) = [] /\ launches (emitted r) = [] /\
  directories_made (emitted r) = [] /\ after r = w.
Proof.
  cbv zeta. unfold investigation_path.
  destruct (validate_investigation_exists_eq os case w) as (tr & Ev & _ & Hp).
  unfold stage_5_package_for_review.
  destruct (succeeded (validate_case_name case)
            && isdir os w (Py.path_join (INVESTIGATIONS_DIR os) case)).
  - erewrite bind_then;
      [| reflexivity
       | eapply bind_then; [exact Ev | eapply bind_then; reflexivity] ].
    cbn [outcome emitted after app scripts_tried launches directories_made].
    rewrite scripts_tried_app, launches_app, directories_made_app,
      (passive_events_scripts_tried _ Hp), (passive_events_launches _ Hp),
      (passive_events_directories_made _ Hp).
    repeat split.
  - erewrite bind_then;
      [| reflexivity | eapply bind_then; [exact Ev | reflexivity] ].
    cbn [outcome emitted after app scripts_tried launches directories_made].
    rewrite scripts_tried_app, launches_app, directories_made_app,
      (passive_events_scripts_tried _ Hp), (passive_events_launches _ Hp),
      (passive_events_directories_made _ Hp).
    repeat split.
Qed.



Lemma selects_all_or_unset (x : option string) (s : string) :
  selects x s = false -> all_or_unset x = false.
Proof.
  unfold selects, all_or_unset. rewrite <- orb_assoc.
  intros H. apply orb_false_elim in H. apply H.
Qed.

(** X19: a selector that names nothing a stage knows makes the stage a
    successful no-op once the investigation is found: no script is looked
    for and nothing is launched.  The acquire and datashare stages log one
    warning for it; the parse and analyze stages log none. *)
Theorem unmatched_selector_runs_nothing os case sel t w :
  outcome (validate_investigation_exists os case w) = inl true ->
  (selects sel "irs_990s" = false ->
   let r := stage_1_acquire_source_documents os case sel t w in
   outcome r = inl true /\ scripts_tried (emitted r) = [] /\
   launches (emitted r) = [] /\ after r = w /\
   warnings (emitted r) = [M_NoAcquisitionScripts sel]) /\
  (selects sel "create_project" = false ->
   let r := stage_2_datashare_processing os case sel t w in
   outcome r = inl true /\ scripts_tried (emitted r) = [] /\
   launches (emitted r) = [] /\ after r = w /\
   warnings (emitted r) = [M_NoDatashareActions sel]) /\
  (selects sel "irs_990s" = false ->
   let r := stage_3_parse_and_structure_data os case sel t w in
   outcome r = inl true /\ scripts_tried (emitted r) = [] /\
   launches (emitted r) = [] /\ after r = w /\
   warnings (emitted r) = []) /\
  (selects sel "connections" = false ->
   let r := stage_4_analysis_and_reporting os case sel t w in
   outcome r = inl true /\ scripts_tried (emitted r) = [] /\
   launches (emitted r) = [] /\ after r = w /\
   warnings (emitted r) = []).
Proof.
  intros Hv.
  destruct (validate_investigation_exists_passed_eq os case w Hv)
    as (tr & Ev & Hp & Hw).
  assert (Hst := passive_events_scripts_tried _ Hp).
  assert (Hla := passive_events_launches _ Hp).
  split; [|split; [|split]]; intros Hs; cbv zeta.
  - unfold stage_1_acquire_source_documents. rewrite Hs. cbn [is_nil].
    erewrite bind_then;
      [| reflexivity
       | eapply bind_then; [exact Ev | eapply bind_then; reflexivity] ].
    cbn [outcome emitted after app scripts_tried launches warnings].
    rewrite scripts_tried_app, launches_app, warnings_app, Hst, Hla, Hw.
    repeat split.
  - unfold stage_2_datashare_processing. rewrite Hs. cbn [is_nil].
    erewrite bind_then;
      [| reflexivity
       | eapply bind_then; [exact Ev | eapply bind_then; reflexivity] ].
    cbn [outcome emitted after app scripts_tried launches warnings].
    rewrite scripts_tried_app, launches_app, warnings_app, Hst, Hla, Hw.
    repeat split.
  - unfold stage_3_parse_and_structure_data.
    rewrite Hs, (selects_all_or_unset sel "irs_990s" Hs).
    cbn [no_args map for_scripts].
    erewrite bind_then;
      [| reflexivity
       | eapply bind_then; [exact Ev | eapply bind_then; reflexivity] ].
    cbn [outcome emitted after app scripts_tried launches warnings].
    rewrite scripts_tried_app, launches_app, warnings_app, Hst, Hla, Hw.
    repeat split.
  - unfold stage_4_analysis_and_reporting. rewrite Hs.
    cbn [no_args map for_scripts].
    erewrite bind_then;
      [| reflexivity | eapply bind_then; [exact Ev | reflexivity] ].
    cbn [outcome emitted after app scripts_tried launches warnings].
    rewrite scripts_tried_app, launches_app, warnings_app, Hst, Hla, Hw.
    repeat split.
Qed.

Lemma unmatched_selector_runs_nothing_witness :
  warnings
    (emitted (stage_1_acquire_source_documents Toy.healthy "Case1" (Some "corporate"%string)
                7200 ["/opt/irs990/investigations/Case1"%string]))
  = [M_NoAcquisitionScripts (Some "corporate"%string)] /\
  outcome (stage_4_analysis_and_reporting Toy.healthy "Case1" (Some "network_graph"%string)
             7200 ["/opt/irs990/investigations/Case1"%string])
  = inl true.
Proof.
  pose proof (unmatched_selector_runs_nothing Toy.healthy "Case1"
                (Some "corporate"%string) 7200
                ["/opt/irs990/investigations/Case1"%string] eq_refl) as H1.
  pose proof (unmatched_selector_runs_nothing Toy.healthy "Case1"
                (Some "network_graph"%string) 7200
                ["/opt/irs990/investigations/Case1"%string] eq_refl) as H2.
  split.
  - exact (proj2 (proj2 (proj2 (proj2 (proj1 H1 eq_refl))))).
  - exact (proj1 (proj2 (proj2 (proj2 H2)) eq_refl)).
Defined.



Lemma setup_runs_no_script_witness :
  launches (emitted (stage_0_setup_investigation Toy.read_only "Case1" 7200 [])) = [] /\
  exists p,
    outcome (stage_0_setup_investigation Toy.read_only "Case1" 7200 [])
    = inr (SetupError p).
Proof.
  destruct (setup_runs_no_script Toy.read_only "Case1" 7200 [])
    as (_ & Hl & _ & _ & He).
  split; [exact Hl|].
  assert (E : outcome (stage_0_setup_investigation Toy.read_only "Case1" 7200 [])
              = inr (SetupError (SetupMkdirFailed "Case1" "Read-only file system")))
    by reflexivity.
  destruct (He _ E) as [p Hp]. exists p. rewrite E, Hp. reflexivity.
Defined.

Lemma directories_made_only_by_setup_witness :
  directories_made
    (emitted (main Toy.healthy (Toy.request "Case1" ["acquire"; "package"]%string) []))
  = [].
Proof.
  apply (directories_made_only_by_setup Toy.healthy
           (Toy.request "Case1" ["acquire"; "package"]%string) []).
  cbn. intros [H|[H|[]]]; discriminate H.
Defined.

Lemma children_launched_only_by_script_stages_witness :
  launches
    (emitted (main Toy.healthy (Toy.request "Case1" ["setup"; "package"]%string) []))
  = [].
Proof.
  refine (proj1 (proj2 (children_launched_only_by_script_stages Toy.healthy
                          (Toy.request "Case1" ["setup"; "package"]%string) [] _))).
  cbn. intros s [<-|[<-|[]]] [H|[H|[H|[H|[]]]]]; discriminate H.
Defined.
